(** * MapMeshMaterials: distance fading for THREE mesh materials

    A shallow embedding of [@here/materials/lib/MapMeshMaterials.ts]:
    the [FadingFeature] namespace, the [FadingFeatureMixin] class and the
    two material classes [MapMeshBasicMaterial] / [MapMeshStandardMaterial].

    Modelling choices.
    - A JavaScript [number] is an IEEE 754 binary64 value: Rocq's primitive
      [float].  [a !== b] on numbers is [negb (PrimFloat.eqb a b)] (so
      [NaN !== NaN] holds and [0 !== -0] does not), [a > 0.0] is
      [PrimFloat.ltb 0 a], [a <= 0.0] is [PrimFloat.leb a 0].
    - An optional property ([x?: T]) is an [option T]; [None] is [undefined].
    - A JavaScript object used as a dictionary ([defines], [uniforms],
      [THREE.ShaderChunk]) is a [gmap string _].
    - Objects are mutated in place by the source; here every procedure maps
      the state before to the state after.  A statement that can throw
      returns a [completion] next to the state reached. *)

From Stdlib Require Import Floats Ascii String.
From stdpp Require Import gmap strings.

#[local] Set Warnings "-inexact-float".
#[local] Open Scope string_scope.

(** ** JavaScript strings: [String.prototype.replace] with a string pattern *)

Module JsString.

Definition nl : string := String "010"%char "".
Definition tab : string := String "009"%char "".

(** [stripPrefix p s] is [Some r] when [s] starts with [p] and continues
    with [r]. *)
Fixpoint stripPrefix (p s : string) : option string :=
  match p with
  | "" => Some s
  | String a p' =>
      match s with
      | "" => None
      | String b s' => if Ascii.eqb a b then stripPrefix p' s' else None
      end
  end.

(** The first occurrence of [pat] in [s], as the text before it and the
    text after it ([StringIndexOf] from position 0). *)
Fixpoint splitFirst (pat s : string) : option (string * string) :=
  match stripPrefix pat s with
  | Some rest => Some ("", rest)
  | None =>
      match s with
      | "" => None
      | String c s' =>
          match splitFirst pat s' with
          | Some (before, after) => Some (String c before, after)
          | None => None
          end
      end
  end.

(** [GetSubstitution] of ECMAScript for a string pattern: there are no
    captures, so only [$$], [$&], [$`] and [$'] are special in the
    replacement text; every other [$] stands for itself. *)
Fixpoint GetSubstitution (matched before after template : string) : string :=
  match template with
  | "" => ""
  | String c t =>
      if Ascii.eqb c "$"%char then
        match t with
        | "" => String c ""
        | String d t' =>
            if Ascii.eqb d "$"%char then String "$"%char (GetSubstitution matched before after t')
            else if Ascii.eqb d "&"%char then matched +:+ GetSubstitution matched before after t'
            else if Ascii.eqb d "`"%char then before +:+ GetSubstitution matched before after t'
            else if Ascii.eqb d "'"%char then after +:+ GetSubstitution matched before after t'
            else String c (GetSubstitution matched before after t)
        end
      else String c (GetSubstitution matched before after t)
  end.

(** [s.replace(searchValue, replaceValue)] with two strings: the first
    occurrence only; the receiver itself when there is none. *)
Definition replace (s searchValue replaceValue : string) : string :=
  match splitFirst searchValue s with
  | None => s
  | Some (before, after) =>
      before +:+ GetSubstitution searchValue before after replaceValue +:+ after
  end.

(** [pat] occurs somewhere in [s]. *)
Definition occurs (pat s : string) : Prop :=
  exists before after, s = before +:+ pat +:+ after.

(** The text contains no [$], the only character [replace] interprets. *)
Fixpoint noDollar (s : string) : bool :=
  match s with
  | "" => true
  | String c t => negb (Ascii.eqb c "$"%char) && noDollar t
  end.

End JsString.

(** ** JavaScript values used by the materials *)

(** [value: any] of a uniform: the fading uniforms hold a number or
    [undefined]; every other uniform value is opaque here. *)
Inductive any : Type :=
  | Undefined
  | Number (x : float)
  | Opaque (id : nat).

Definition anyOfNumber (x : option float) : any :=
  match x with
  | Some v => Number v
  | None => Undefined
  end.

(** Truthiness of an optional boolean ([if (this.needsUpdate)]). *)
Definition truthy (b : option bool) : bool :=
  match b with
  | Some true => true
  | _ => false
  end.

(** [a || b] with [a] an optional boolean and [b] a boolean: [a] when it is
    truthy, [b] otherwise. *)
Definition jsOr (a : option bool) (b : bool) : option bool :=
  if truthy a then a else Some b.

(** [value !== stored] with [value] a number and [stored] a number or
    [undefined]. *)
Definition strictNe (value : float) (stored : option float) : bool :=
  match stored with
  | Some s => negb (PrimFloat.eqb value s)
  | None => true
  end.

(** [x > 0.0] and [x <= 0.0]. *)
Definition gtZero (x : float) : bool := PrimFloat.ltb 0%float x.
Definition leZero (x : float) : bool := PrimFloat.leb x 0%float.

(** How a statement ends. *)
Inductive completion : Type :=
  | Normal
  | Throw (error : string).

(** ** Data model *)

(** [FadingFeatureParameters]. *)
Record FadingFeatureParameters : Type := mkFadingFeatureParameters {
  fadeNear : option float;
  fadeFar : option float
}.

(** [UnifomType] (spelled as in the source) and [UniformsType]. *)
Record UnifomType : Type := mkUniform { value : any }.

(** The [shader] argument of [onBeforeCompile]. *)
Record Shader : Type := mkShader {
  uniforms : gmap string UnifomType;
  vertexShader : string;
  fragmentShader : string
}.

(** [camera as THREE.PerspectiveCamera]: only [far] is read. *)
Record Camera : Type := mkCamera { far : float }.

(** What [renderer.properties.get(material)] returns for the material
    being rendered: [shader] is [undefined] until a program was built. *)
Record MaterialProperties : Type := mkMaterialProperties {
  shader : option Shader
}.

Record WebGLRenderer : Type := mkRenderer { properties : MaterialProperties }.

(** The value of [material.onBeforeCompile]: THREE's empty default, or the
    closure installed by [applyFadingParameters], which calls
    [FadingFeature.onBeforeCompile(this, shader)] on the material as it is
    when the hook runs. *)
Inductive CompileHook : Type :=
  | ThreeDefaultHook
  | FadingHook.

(** The properties of a THREE material that this file reads or writes:
    [HiddenThreeJSMaterialProperties] and [onBeforeCompile]. *)
Record ThreeMaterial : Type := mkThreeMaterial {
  needsUpdate : option bool;
  defines : option (gmap string string);
  uniformsNeedUpdate : option bool;
  transparent : option bool;
  onBeforeCompile_hook : CompileHook
}.

(** The two classes that implement [FadingFeature]. *)
Inductive MaterialKind : Type :=
  | MapMeshBasicMaterial
  | MapMeshStandardMaterial.

(** Which [fadeNear]/[fadeFar] accessors an instance answers to: the
    placeholder pair of the class ([get] returns the default, [set] does
    nothing), or the own properties defined by [addFadingProperties]. *)
Inductive FadingAccessors : Type :=
  | Placeholder
  | Registered.

(** An instance of one of the two classes.  [m_fadeNear] and [m_fadeFar]
    start out [undefined]: the mixin is applied without its properties, so
    the field initialisers of [FadingFeatureMixin] never run on it. *)
Record Material : Type := mkMaterial {
  kind : MaterialKind;
  base : ThreeMaterial;
  accessors : FadingAccessors;
  m_fadeNear : option float;
  m_fadeFar : option float
}.

(** Field assignments. *)
Definition setNeedsUpdate (b : option bool) (m : Material) : Material :=
  let t := base m in
  mkMaterial (kind m)
    (mkThreeMaterial b (defines t) (uniformsNeedUpdate t) (transparent t) (onBeforeCompile_hook t))
    (accessors m) (m_fadeNear m) (m_fadeFar m).

Definition setDefines (d : option (gmap string string)) (m : Material) : Material :=
  let t := base m in
  mkMaterial (kind m)
    (mkThreeMaterial (needsUpdate t) d (uniformsNeedUpdate t) (transparent t) (onBeforeCompile_hook t))
    (accessors m) (m_fadeNear m) (m_fadeFar m).

Definition setUniformsNeedUpdate (b : option bool) (m : Material) : Material :=
  let t := base m in
  mkMaterial (kind m)
    (mkThreeMaterial (needsUpdate t) (defines t) b (transparent t) (onBeforeCompile_hook t))
    (accessors m) (m_fadeNear m) (m_fadeFar m).

Definition setTransparent (b : option bool) (m : Material) : Material :=
  let t := base m in
  mkMaterial (kind m)
    (mkThreeMaterial (needsUpdate t) (defines t) (uniformsNeedUpdate t) b (onBeforeCompile_hook t))
    (accessors m) (m_fadeNear m) (m_fadeFar m).

Definition setOnBeforeCompile (h : CompileHook) (m : Material) : Material :=
  let t := base m in
  mkMaterial (kind m)
    (mkThreeMaterial (needsUpdate t) (defines t) (uniformsNeedUpdate t) (transparent t) h)
    (accessors m) (m_fadeNear m) (m_fadeFar m).

Definition setBase (t : ThreeMaterial) (m : Material) : Material :=
  mkMaterial (kind m) t (accessors m) (m_fadeNear m) (m_fadeFar m).

Definition setAccessors (a : FadingAccessors) (m : Material) : Material :=
  mkMaterial (kind m) (base m) a (m_fadeNear m) (m_fadeFar m).

Definition set_m_fadeNear (v : option float) (m : Material) : Material :=
  mkMaterial (kind m) (base m) (accessors m) v (m_fadeFar m).

Definition set_m_fadeFar (v : option float) (m : Material) : Material :=
  mkMaterial (kind m) (base m) (accessors m) (m_fadeNear m) v.

(** [material.defines[name]], [undefined] when there is no map at all. *)
Definition lookupDefine (name : string) (m : Material) : option string :=
  match defines (base m) with
  | Some d => d !! name
  | None => None
  end.

(** ** Namespace [FadingFeature], first part, and the mixin's accessors *)

Definition DEFAULT_FADE_NEAR : float := (-1)%float.
Definition DEFAULT_FADE_FAR : float := (-1)%float.

Definition FADING_MATERIAL : string := "FADING_MATERIAL".

(** [cameraToWorldDistance]. *)
Definition cameraToWorldDistance (distance : float) (camera : Camera) : float :=
  PrimFloat.mul distance (far camera).

(** [getFadeNear] / [getFadeFar] of the mixin. *)
Definition getFadeNear (this : Material) : option float := m_fadeNear this.
Definition getFadeFar (this : Material) : option float := m_fadeFar this.

(** Reading the property [material.fadeNear] / [material.fadeFar]. *)
Definition get_fadeNear (m : Material) : option float :=
  match accessors m with
  | Placeholder => Some DEFAULT_FADE_NEAR
  | Registered => getFadeNear m
  end.

Definition get_fadeFar (m : Material) : option float :=
  match accessors m with
  | Placeholder => Some DEFAULT_FADE_FAR
  | Registered => getFadeFar m
  end.

(** [FadingFeature.updateDistanceFadeFeature]. *)
Definition updateDistanceFadeFeature (fadingMaterial : Material) : Material :=
  let m1 := setNeedsUpdate (Some true) fadingMaterial in
  let m2 :=
    match defines (base m1) with
    | None => setDefines (Some ∅) m1
    | Some _ => m1
    end in
  match get_fadeFar m2, defines (base m2) with
  | Some f, Some d =>
      if gtZero f then setDefines (Some (<[FADING_MATERIAL := ""]> d)) m2 else m2
  | _, _ => m2
  end.

(** [setFadeNear] / [setFadeFar] of the mixin. *)
Definition setFadeNear (value : float) (this : Material) : Material :=
  let m1 := setNeedsUpdate (jsOr (needsUpdate (base this)) (strictNe value (m_fadeNear this))) this in
  let m2 := set_m_fadeNear (Some value) m1 in
  if truthy (needsUpdate (base m2)) then updateDistanceFadeFeature m2 else m2.

Definition setFadeFar (value : float) (this : Material) : Material :=
  let m1 := setNeedsUpdate (jsOr (needsUpdate (base this)) (strictNe value (m_fadeFar this))) this in
  let m2 := set_m_fadeFar (Some value) m1 in
  if truthy (needsUpdate (base m2)) then updateDistanceFadeFeature m2 else m2.

(** Assigning the property [material.fadeNear = value] / [material.fadeFar = value]. *)
Definition set_fadeNear (value : float) (m : Material) : Material :=
  match accessors m with
  | Placeholder => m
  | Registered => setFadeNear value m
  end.

Definition set_fadeFar (value : float) (m : Material) : Material :=
  match accessors m with
  | Placeholder => m
  | Registered => setFadeFar value m
  end.

(** [addFadingProperties]: the own accessors replace the placeholders. *)
Definition addFadingProperties (this : Material) : Material :=
  setAccessors Registered this.

(** ** Namespace [FadingFeature]: shader patching *)

Definition includeDirective (name : string) : string := "#include <" +:+ name +:+ ">".

Definition PATCH_START : string := "// << Patched fading shader START >>".
Definition PATCH_END : string := "// << Patched fading shader END >>".

(** [FadingFeature.insertShaderInclude]. *)
Definition insertShaderInclude
    (shaderContent shaderName insertedShaderName : string) (addTab : option bool) : string :=
  let tabChar := match addTab with Some true => JsString.tab | _ => "" end in
  let result :=
    JsString.replace shaderContent
      (includeDirective shaderName)
      (JsString.nl +:+ includeDirective shaderName +:+ JsString.nl
       +:+ PATCH_START +:+ JsString.nl
       +:+ tabChar +:+ includeDirective insertedShaderName +:+ JsString.nl
       +:+ PATCH_END +:+ JsString.nl) in
  result.

Definition setUniforms (u : gmap string UnifomType) (s : Shader) : Shader :=
  mkShader u (vertexShader s) (fragmentShader s).

Definition setVertexShader (v : string) (s : Shader) : Shader :=
  mkShader (uniforms s) v (fragmentShader s).

Definition setFragmentShader (f : string) (s : Shader) : Shader :=
  mkShader (uniforms s) (vertexShader s) f.

(** [FadingFeature.onBeforeCompile]: the shader after the call. *)
Definition onBeforeCompile (fadingMaterial : Material) (shader : Shader) : Shader :=
  match get_fadeFar fadingMaterial with
  | None => shader
  | Some f =>
      if leZero f then shader
      else
        let s1 := setUniforms (<["fadeNear" := mkUniform (anyOfNumber (get_fadeNear fadingMaterial))]>
                                 (uniforms shader)) shader in
        let s2 := setUniforms (<["fadeFar" := mkUniform (anyOfNumber (get_fadeFar fadingMaterial))]>
                                 (uniforms s1)) s1 in
        let s3 := setVertexShader
                    (insertShaderInclude (vertexShader s2) "fog_pars_vertex" "fading_pars_vertex" None) s2 in
        let s4 := setVertexShader
                    (insertShaderInclude (vertexShader s3) "fog_vertex" "fading_vertex" (Some true)) s3 in
        let s5 := setFragmentShader
                    (insertShaderInclude (fragmentShader s4) "fog_pars_fragment" "fading_pars_fragment" None) s4 in
        let s6 := setFragmentShader
                    (insertShaderInclude (fragmentShader s5) "fog_fragment" "fading_fragment" (Some true)) s5 in
        s6
  end.

(** Calling [material.onBeforeCompile(shader)]. *)
Definition callOnBeforeCompile (m : Material) (shader : Shader) : Shader :=
  match onBeforeCompile_hook (base m) with
  | ThreeDefaultHook => shader
  | FadingHook => onBeforeCompile m shader
  end.

(** ** Namespace [FadingFeature]: render hooks *)

(** The renderer and the material after a hook, and how the hook ended. *)
Definition RenderResult : Type := (WebGLRenderer * Material) * completion.

Definition rendererOf (r : RenderResult) : WebGLRenderer := fst (fst r).
Definition materialOf (r : RenderResult) : Material := snd (fst r).
Definition completionOf (r : RenderResult) : completion := snd r.

(** [additionalCallback(renderer, material)]. *)
Definition Callback : Type := WebGLRenderer -> Material -> RenderResult.

(** [object.onBeforeRender] / [object.onAfterRender]; the scene and the
    geometry arguments are not used by the hooks of this file. *)
Definition RenderHook : Type := WebGLRenderer -> Camera -> Material -> RenderResult.

Record Object3D : Type := mkObject3D {
  onBeforeRender : RenderHook;
  onAfterRender : RenderHook
}.

(** [uniforms[name].value = v]: a [TypeError] when there is no such uniform. *)
Definition assignUniformValue (name : string) (v : any) (s : Shader) : option Shader :=
  match uniforms s !! name with
  | Some _ => Some (setUniforms (<[name := mkUniform v]> (uniforms s)) s)
  | None => None
  end.

Definition typeError : completion := Throw "TypeError".

(** The [if (updateUniforms) { ... }] block of the before-render hook. *)
Definition pushUniforms (renderer : WebGLRenderer) (material : Material) : RenderResult :=
  match shader (properties renderer) with
  | None => ((renderer, material), Normal)
  | Some s =>
      match assignUniformValue "fadeNear" (anyOfNumber (get_fadeNear material)) s with
      | None => ((renderer, material), typeError)
      | Some s1 =>
          let r1 := mkRenderer (mkMaterialProperties (Some s1)) in
          match assignUniformValue "fadeFar" (anyOfNumber (get_fadeFar material)) s1 with
          | None => ((r1, material), typeError)
          | Some s2 =>
              let r2 := mkRenderer (mkMaterialProperties (Some s2)) in
              ((r2, setUniformsNeedUpdate (Some true) material), Normal)
          end
      end
  end.

(** The closure assigned to [object.onBeforeRender] by [addRenderHelper]. *)
Definition beforeRenderHook
    (fadeNear fadeFar : option float)
    (forceMaterialToTransparent updateUniforms : bool)
    (additionalCallback : option Callback) : RenderHook :=
  fun renderer camera material =>
    let m1 := if forceMaterialToTransparent then setTransparent (Some true) material else material in
    let m2 :=
      set_fadeNear
        (match fadeNear with
         | None => DEFAULT_FADE_NEAR
         | Some n => cameraToWorldDistance n camera
         end) m1 in
    let m3 :=
      set_fadeFar
        (match fadeFar with
         | None => DEFAULT_FADE_FAR
         | Some f => cameraToWorldDistance f camera
         end) m2 in
    let r4 := if updateUniforms then pushUniforms renderer m3 else ((renderer, m3), Normal) in
    match completionOf r4 with
    | Throw _ => r4
    | Normal =>
        match additionalCallback with
        | Some callback => callback (rendererOf r4) (materialOf r4)
        | None => r4
        end
    end.

(** The closure assigned to [object.onAfterRender]. *)
Definition afterRenderHook : RenderHook :=
  fun renderer camera material => ((renderer, setTransparent (Some false) material), Normal).

(** [FadingFeature.addRenderHelper]: the object with its hooks replaced. *)
Definition addRenderHelper
    (object : Object3D)
    (fadeNear fadeFar : option float)
    (forceMaterialToTransparent updateUniforms : bool)
    (additionalCallback : option Callback) : Object3D :=
  let o1 :=
    mkObject3D
      (beforeRenderHook fadeNear fadeFar forceMaterialToTransparent updateUniforms additionalCallback)
      (onAfterRender object) in
  if forceMaterialToTransparent then mkObject3D (onBeforeRender o1) afterRenderHook else o1.

(** [THREE.Object3D]'s own hooks are empty functions. *)
Definition emptyHook : RenderHook :=
  fun renderer camera material => ((renderer, material), Normal).

Definition newObject3D : Object3D := mkObject3D emptyHook emptyHook.

(** ** Class [FadingFeatureMixin]: parameters *)

(** [applyFadingParameters]. *)
Definition applyFadingParameters (params : option FadingFeatureParameters) (this : Material) : Material :=
  let m1 :=
    match params with
    | None => this
    | Some p =>
        let m := match fadeNear p with
                 | Some v => setFadeNear v this
                 | None => this
                 end in
        match fadeFar p with
        | Some v => setFadeFar v m
        | None => m
        end
    end in
  setOnBeforeCompile FadingHook m1.

(** [copyFadingParameters], with [source] another object than [this]. *)
Definition copyFadingParameters (source this : Material) : Material :=
  let m1 :=
    setFadeNear
      (match get_fadeNear source with
       | None => DEFAULT_FADE_NEAR
       | Some v => v
       end) this in
  setFadeFar
    (match get_fadeFar source with
     | None => DEFAULT_FADE_FAR
     | Some v => v
     end) m1.

(** ** The material classes

    THREE itself and the module [ShaderChunks/FadingChunks] are outside
    this file: the base-class constructor [super(params)], the base-class
    [super.copy(source)] and the table [fadingShaderChunk] are parameters.
    The base class only knows its own properties, so both base-class
    operations are functions on [ThreeMaterial]. *)

Section Classes.

Variable ThreeParameters : Type.

(** [THREE.MeshBasicMaterialParameters & FadingFeatureParameters]. *)
Record MaterialParameters : Type := mkMaterialParameters {
  threeParameters : ThreeParameters;
  fading : FadingFeatureParameters
}.

Variable superNew : MaterialKind -> option MaterialParameters -> ThreeMaterial.
Variable superCopy : ThreeMaterial -> ThreeMaterial -> ThreeMaterial.
Variable fadingShaderChunk : gmap string string.

(** [THREE.ShaderChunk.fading_pars_vertex === undefined]. *)
Definition unpatched (ShaderChunk : gmap string string) : bool :=
  match ShaderChunk !! "fading_pars_vertex" with
  | None => true
  | Some _ => false
  end.

(** [FadingFeature.patchGlobalShaderChunks] on the global
    [THREE.ShaderChunk]; [Object.assign] overwrites with the new chunks. *)
Definition patchGlobalShaderChunks (ShaderChunk : gmap string string) : gmap string string :=
  if unpatched ShaderChunk then fadingShaderChunk ∪ ShaderChunk else ShaderChunk.

(** [new MapMeshBasicMaterial(params)] / [new MapMeshStandardMaterial(params)]:
    the global registry and the new instance. *)
Definition construct (k : MaterialKind) (params : option MaterialParameters)
    (ShaderChunk : gmap string string) : gmap string string * Material :=
  let this0 := mkMaterial k (superNew k params) Placeholder None None in
  let ShaderChunk' := patchGlobalShaderChunks ShaderChunk in
  let this1 := addFadingProperties this0 in
  let this2 := applyFadingParameters (option_map fading params) this1 in
  (ShaderChunk', this2).

(** [this.copy(source)], with [source] another object than [this]. *)
Definition copy (source this : Material) : Material :=
  let this1 := setBase (superCopy (base this) (base source)) this in
  copyFadingParameters source this1.

(** [this.clone()]. *)
Definition clone (this : Material) (ShaderChunk : gmap string string)
    : gmap string string * Material :=
  let '(ShaderChunk', fresh) := construct (kind this) None ShaderChunk in
  (ShaderChunk', copy this fresh).

(** A run of constructor calls, one after the other: the registry at the
    end and the instances made. *)
Fixpoint constructAll (calls : list (MaterialKind * option MaterialParameters))
    (ShaderChunk : gmap string string) : gmap string string * list Material :=
  match calls with
  | [] => (ShaderChunk, [])
  | (k, params) :: rest =>
      let '(ShaderChunk1, m) := construct k params ShaderChunk in
      let '(ShaderChunk2, ms) := constructAll rest ShaderChunk1 in
      (ShaderChunk2, m :: ms)
  end.

(** How many of the calls find the registry unpatched, that is, run
    [Object.assign] on it. *)
Fixpoint assignCount (calls : list (MaterialKind * option MaterialParameters))
    (ShaderChunk : gmap string string) : nat :=
  match calls with
  | [] => 0
  | (k, params) :: rest =>
      (if unpatched ShaderChunk then 1 else 0)
      + assignCount rest (fst (construct k params ShaderChunk))
  end.

End Classes.

Arguments mkMaterialParameters {ThreeParameters} _ _.
Arguments threeParameters {ThreeParameters} _.
Arguments fading {ThreeParameters} _.
Arguments construct {ThreeParameters} _ _ _ _ _.
Arguments clone {ThreeParameters} _ _ _ _ _.
Arguments constructAll {ThreeParameters} _ _ _ _.
Arguments assignCount {ThreeParameters} _ _ _ _.

(** ** Sample data for the examples *)

Module Sample.

(** A stand-in for THREE: a new material needs an update and is opaque;
    the standard material comes with its [STANDARD] define. *)
Definition superNew (k : MaterialKind) (params : option (MaterialParameters unit)) : ThreeMaterial :=
  mkThreeMaterial (Some true)
    (match k with
     | MapMeshBasicMaterial => None
     | MapMeshStandardMaterial => Some {["STANDARD" := ""]}
     end)
    None (Some false) ThreeDefaultHook.

Definition superCopy (this source : ThreeMaterial) : ThreeMaterial :=
  mkThreeMaterial (needsUpdate this) (defines this) (uniformsNeedUpdate this)
    (transparent source) (onBeforeCompile_hook this).

Definition fadingShaderChunk : gmap string string :=
  {[ "fading_pars_vertex" := "varying float vFade;";
     "fading_vertex" := "vFade = 1.0;";
     "fading_pars_fragment" := "varying float vFade;";
     "fading_fragment" := "gl_FragColor.a *= vFade;" ]}.

Definition params (near far : option float) : option (MaterialParameters unit) :=
  Some (mkMaterialParameters tt (mkFadingFeatureParameters near far)).

(** A material after the renderer has built its program once. *)
Definition settled (near far : option float) (d : option (gmap string string)) : Material :=
  mkMaterial MapMeshBasicMaterial
    (mkThreeMaterial (Some false) d None (Some false) FadingHook)
    Registered near far.

Definition vertexSource : string :=
  "#include <fog_pars_vertex>" +:+ JsString.nl +:+
  "void main() {" +:+ JsString.nl +:+
  JsString.tab +:+ "#include <fog_vertex>" +:+ JsString.nl +:+ "}".

Definition fragmentSource : string :=
  "#include <fog_pars_fragment>" +:+ JsString.nl +:+
  "void main() {" +:+ JsString.nl +:+
  JsString.tab +:+ "#include <fog_fragment>" +:+ JsString.nl +:+ "}".

Definition sampleShader : Shader := mkShader ∅ vertexSource fragmentSource.

(** The registry before any fading material exists. *)
Definition stockChunks : gmap string string :=
  {[ "fog_pars_vertex" := "varying float fogDepth;";
     "fog_vertex" := "fogDepth = -mvPosition.z;" ]}.

Definition camera1000 : Camera := mkCamera 1000%float.

Definition idleRenderer : WebGLRenderer := mkRenderer (mkMaterialProperties None).

(** A callback that only marks the uniforms dirty. *)
Definition markDirty : Callback :=
  fun renderer material => ((renderer, setUniformsNeedUpdate (Some true) material), Normal).

End Sample.

(** ** Vocabulary of the statements *)

(** The caller's callback, when there is one, leaves the observation [P]
    of the material as it found it. *)
Definition callbackKeeps {X : Type} (P : Material -> X) (additionalCallback : option Callback) : Prop :=
  forall callback, additionalCallback = Some callback ->
    forall renderer material, P (materialOf (callback renderer material)) = P material.

(** The world-space distance the before-render hook stores for a
    configured normalized distance. *)
Definition worldDistance (configured : option float) (sentinel : float) (camera : Camera) : float :=
  match configured with
  | None => sentinel
  | Some d => PrimFloat.mul d (far camera)
  end.

(** The text [insertShaderInclude] puts in place of the anchor directive. *)
Definition patchText (shaderName insertedShaderName : string) (addTab : option bool) : string :=
  JsString.nl +:+ includeDirective shaderName +:+ JsString.nl
  +:+ PATCH_START +:+ JsString.nl
  +:+ (match addTab with Some true => JsString.tab | _ => "" end)
  +:+ includeDirective insertedShaderName +:+ JsString.nl
  +:+ PATCH_END +:+ JsString.nl.

(** The define is there whenever the stored [fadeFar] asks for fading, on
    an instance with its accessors registered. *)
Definition defineFollowsFadeFar (m : Material) : Prop :=
  accessors m = Registered
  /\ forall f, m_fadeFar m = Some f -> gtZero f = true ->
               lookupDefine FADING_MATERIAL m = Some "".

(** The shader carries both fading uniforms. *)
Definition hasFadingUniforms (s : Shader) : Prop :=
  is_Some (uniforms s !! "fadeNear") /\ is_Some (uniforms s !! "fadeFar").

(** The arguments of one [addRenderHelper] call, and a run of such calls
    on the same object. *)
Record RenderHelperCall : Type := mkRenderHelperCall {
  callFadeNear : option float;
  callFadeFar : option float;
  callForce : bool;
  callUpdateUniforms : bool;
  callCallback : option Callback
}.

Definition addRenderHelperCall (object : Object3D) (c : RenderHelperCall) : Object3D :=
  addRenderHelper object (callFadeNear c) (callFadeFar c) (callForce c)
    (callUpdateUniforms c) (callCallback c).

Definition addRenderHelpers (calls : list RenderHelperCall) (object : Object3D) : Object3D :=
  fold_left addRenderHelperCall calls object.

(** * Properties *)

(** ** Strings *)

Module JsStringFacts.
Import JsString.

Lemma append_nil (r : string) : "" +:+ r = r.
Proof. reflexivity. Qed.

Lemma append_cons (c : ascii) (a b : string) : String c a +:+ b = String c (a +:+ b).
Proof. reflexivity. Qed.

Lemma stripPrefix_app (p r : string) : stripPrefix p (p +:+ r) = Some r.
Proof.
  induction p as [|a p IH]; [reflexivity|].
  rewrite append_cons. simpl. rewrite Ascii.eqb_refl. exact IH.
Qed.

Lemma stripPrefix_Some (p s r : string) : stripPrefix p s = Some r -> s = p +:+ r.
Proof.
  revert s. induction p as [|a p IH]; intros s H; simpl in H.
  - injection H as ->. reflexivity.
  - destruct s as [|b s]; [discriminate|].
    destruct (Ascii.eqb a b) eqn:E; [|discriminate].
    apply Ascii.eqb_eq in E. subst b. rewrite append_cons.
    f_equal. apply IH, H.
Qed.

Lemma splitFirst_Some (pat s before after : string) :
  splitFirst pat s = Some (before, after) ->
  s = before +:+ pat +:+ after /\
  forall before' after', s = before' +:+ pat +:+ after' ->
                         String.length before <= String.length before'.
Proof.
  revert before. induction s as [|c s IH]; intros before H; simpl in H.
  - destruct (stripPrefix pat "") as [rest|] eqn:E; [|discriminate].
    injection H as <- <-. apply stripPrefix_Some in E.
    split; [exact E | intros; simpl; lia].
  - destruct (stripPrefix pat (String c s)) as [rest|] eqn:E.
    + injection H as <- <-. apply stripPrefix_Some in E.
      split; [exact E | intros; simpl; lia].
    + destruct (splitFirst pat s) as [[b0 a0]|] eqn:F; [|discriminate].
      injection H as <- <-.
      destruct (IH b0 eq_refl) as [Hs Hmin].
      split; [rewrite append_cons; f_equal; exact Hs|].
      intros [|c' b'] a' Heq.
      * rewrite append_nil in Heq. rewrite Heq, stripPrefix_app in E. discriminate.
      * rewrite append_cons in Heq. injection Heq as -> Heq.
        simpl. apply le_n_S, Hmin with a'. exact Heq.
Qed.

Lemma splitFirst_None (pat s : string) : splitFirst pat s = None -> ~ occurs pat s.
Proof.
  induction s as [|c s IH]; intros H [b [a Heq]]; simpl in H.
  - destruct (stripPrefix pat "") eqn:E; [discriminate|].
    destruct b; [|discriminate]. rewrite append_nil in Heq.
    rewrite Heq, stripPrefix_app in E. discriminate.
  - destruct (stripPrefix pat (String c s)) eqn:E; [discriminate|].
    destruct (splitFirst pat s) as [[b0 a0]|] eqn:F; [discriminate|].
    destruct b as [|c' b].
    + rewrite append_nil in Heq. rewrite Heq, stripPrefix_app in E. discriminate.
    + rewrite append_cons in Heq. injection Heq as -> Heq.
      apply IH; [reflexivity|]. exists b, a. exact Heq.
Qed.

Lemma noDollar_app (a b : string) : noDollar (a +:+ b) = noDollar a && noDollar b.
Proof.
  induction a as [|c a IH]; [reflexivity|].
  rewrite append_cons. simpl. rewrite IH. apply andb_assoc.
Qed.

Lemma GetSubstitution_noDollar (matched before after template : string) :
  noDollar template = true ->
  GetSubstitution matched before after template = template.
Proof.
  induction template as [|c t IH]; simpl; [reflexivity|].
  intros H. apply andb_true_iff in H as [Hc Ht].
  apply negb_true_iff in Hc. rewrite Hc. f_equal. apply IH, Ht.
Qed.

(** [replace] with a replacement text free of [$]: the two cases. *)
Lemma replace_found (s pat repl before after : string) :
  noDollar repl = true ->
  splitFirst pat s = Some (before, after) ->
  replace s pat repl = before +:+ repl +:+ after.
Proof.
  intros Hd Hs. unfold replace. rewrite Hs, GetSubstitution_noDollar by exact Hd.
  reflexivity.
Qed.

Lemma replace_absent (s pat repl : string) :
  ~ occurs pat s -> replace s pat repl = s.
Proof.
  intros Hn. unfold replace.
  destruct (splitFirst pat s) as [[b a]|] eqn:E; [|reflexivity].
  exfalso. apply Hn. exists b, a. apply (splitFirst_Some _ _ _ _ E).
Qed.

Lemma occurs_splitFirst (pat s : string) :
  occurs pat s -> exists before after, splitFirst pat s = Some (before, after).
Proof.
  intros Ho. destruct (splitFirst pat s) as [[b a]|] eqn:E.
  - exists b, a. reflexivity.
  - exfalso. exact (splitFirst_None _ _ E Ho).
Qed.

End JsStringFacts.

(** ** Numbers *)

Module NumberFacts.

Lemma positive_ne_nonpositive (x y : float) :
  gtZero x = true -> leZero y = true -> PrimFloat.eqb x y = false.
Proof.
  unfold gtZero, leZero.
  rewrite FloatAxioms.ltb_spec, FloatAxioms.leb_spec, FloatAxioms.eqb_spec.
  replace (Prim2SF 0) with (S754_zero false) by reflexivity.
  destruct (Prim2SF x) as [[]|[]| |[] ? ?], (Prim2SF y) as [[]|[]| |[] ? ?];
    cbn; try discriminate; reflexivity.
Qed.

Lemma leZero_not_gtZero (x : float) : leZero x = true -> gtZero x = false.
Proof.
  unfold gtZero, leZero.
  rewrite FloatAxioms.ltb_spec, FloatAxioms.leb_spec.
  replace (Prim2SF 0) with (S754_zero false) by reflexivity.
  destruct (Prim2SF x) as [[]|[]| |[] ? ?]; cbn; try discriminate; reflexivity.
Qed.

Lemma strictNe_positive (v : float) (stored : option float) :
  gtZero v = true ->
  stored = None \/ (exists old, stored = Some old /\ leZero old = true) ->
  strictNe v stored = true.
Proof.
  intros Hv [->|[old [-> Hold]]]; simpl; [reflexivity|].
  rewrite (positive_ne_nonpositive v old Hv Hold). reflexivity.
Qed.

End NumberFacts.

(** ** The update procedure and the setters *)

Lemma jsOr_flag (a : option bool) (b : bool) : jsOr a b = Some (truthy a || b).
Proof. destruct a as [[]|]; reflexivity. Qed.

Lemma updateDistanceFadeFeature_unfold (m : Material) :
  updateDistanceFadeFeature m =
  setDefines
    (Some (let d := default ∅ (defines (base m)) in
           match get_fadeFar m with
           | Some f => if gtZero f then <[FADING_MATERIAL := ""]> d else d
           | None => d
           end))
    (setNeedsUpdate (Some true) m).
Proof.
  destruct m as [k [nu [d|] unu tr h] [] near [f|]]; unfold updateDistanceFadeFeature, get_fadeFar;
    simpl; try reflexivity; destruct (gtZero _); reflexivity.
Qed.

Lemma updateDistanceFadeFeature_frame (m : Material) :
  kind (updateDistanceFadeFeature m) = kind m /\
  accessors (updateDistanceFadeFeature m) = accessors m /\
  m_fadeNear (updateDistanceFadeFeature m) = m_fadeNear m /\
  m_fadeFar (updateDistanceFadeFeature m) = m_fadeFar m /\
  transparent (base (updateDistanceFadeFeature m)) = transparent (base m) /\
  needsUpdate (base (updateDistanceFadeFeature m)) = Some true.
Proof. rewrite updateDistanceFadeFeature_unfold. repeat split; reflexivity. Qed.

Lemma setFadeNear_unfold (m : Material) (v : float) :
  let flag := truthy (needsUpdate (base m)) || strictNe v (m_fadeNear m) in
  let stored := set_m_fadeNear (Some v) (setNeedsUpdate (Some flag) m) in
  setFadeNear v m = if flag then updateDistanceFadeFeature stored else stored.
Proof.
  unfold setFadeNear. rewrite jsOr_flag. simpl.
  destruct (truthy (needsUpdate (base m)) || strictNe v (m_fadeNear m)); reflexivity.
Qed.

Lemma setFadeFar_unfold (m : Material) (v : float) :
  let flag := truthy (needsUpdate (base m)) || strictNe v (m_fadeFar m) in
  let stored := set_m_fadeFar (Some v) (setNeedsUpdate (Some flag) m) in
  setFadeFar v m = if flag then updateDistanceFadeFeature stored else stored.
Proof.
  unfold setFadeFar. rewrite jsOr_flag. simpl.
  destruct (truthy (needsUpdate (base m)) || strictNe v (m_fadeFar m)); reflexivity.
Qed.

Lemma setFadeNear_frame (m : Material) (v : float) :
  kind (setFadeNear v m) = kind m /\
  accessors (setFadeNear v m) = accessors m /\
  m_fadeNear (setFadeNear v m) = Some v /\
  m_fadeFar (setFadeNear v m) = m_fadeFar m /\
  transparent (base (setFadeNear v m)) = transparent (base m).
Proof.
  rewrite setFadeNear_unfold.
  destruct (truthy (needsUpdate (base m)) || strictNe v (m_fadeNear m));
    [rewrite updateDistanceFadeFeature_unfold|]; repeat split; reflexivity.
Qed.

Lemma setFadeFar_frame (m : Material) (v : float) :
  kind (setFadeFar v m) = kind m /\
  accessors (setFadeFar v m) = accessors m /\
  m_fadeNear (setFadeFar v m) = m_fadeNear m /\
  m_fadeFar (setFadeFar v m) = Some v /\
  transparent (base (setFadeFar v m)) = transparent (base m).
Proof.
  rewrite setFadeFar_unfold.
  destruct (truthy (needsUpdate (base m)) || strictNe v (m_fadeFar m));
    [rewrite updateDistanceFadeFeature_unfold|]; repeat split; reflexivity.
Qed.

(** C8.  The update procedure is idempotent: run twice on a material whose
    [fadeFar] is not touched in between, it leaves the material, and so its
    defines map, as the first run left it. *)
Theorem updateDistanceFadeFeature_idempotent (m : Material) :
  updateDistanceFadeFeature (updateDistanceFadeFeature m) = updateDistanceFadeFeature m
  /\ defines (base (updateDistanceFadeFeature (updateDistanceFadeFeature m)))
     = defines (base (updateDistanceFadeFeature m)).
Proof.
  assert (H : updateDistanceFadeFeature (updateDistanceFadeFeature m)
              = updateDistanceFadeFeature m).
  { rewrite (updateDistanceFadeFeature_unfold (updateDistanceFadeFeature m)).
    rewrite (updateDistanceFadeFeature_unfold m).
    destruct m as [k [nu d unu tr h] acc near far_]. unfold get_fadeFar, setDefines, setNeedsUpdate.
    simpl. do 3 f_equal.
    destruct acc; simpl; [reflexivity|].
    destruct far_ as [f|]; [|reflexivity].
    destruct (gtZero f); [apply insert_insert_eq | reflexivity]. }
  split; [exact H | rewrite H; reflexivity].
Qed.

(** C3.  Setting [fadeNear] (respectively [fadeFar]) to a number [v]:
    (1) the "needs update" flag becomes true exactly when [v !== stored]
    or the flag was already true; (2) [v] is stored, so the getter returns
    it; (3) the update procedure runs, on the material with the flag and
    the value already stored, if and only if that flag is true.  On an
    instance with its accessors registered, assigning the property is this
    very setter and reading it back gives [v]. *)
Theorem setter_contract (m : Material) (v : float) :
  (let flag := truthy (needsUpdate (base m)) || strictNe v (m_fadeNear m) in
   let stored := set_m_fadeNear (Some v) (setNeedsUpdate (Some flag) m) in
   needsUpdate (base (setFadeNear v m)) = Some flag
   /\ getFadeNear (setFadeNear v m) = Some v
   /\ setFadeNear v m = (if flag then updateDistanceFadeFeature stored else stored)
   /\ (accessors m = Registered ->
       set_fadeNear v m = setFadeNear v m /\ get_fadeNear (set_fadeNear v m) = Some v))
  /\
  (let flag := truthy (needsUpdate (base m)) || strictNe v (m_fadeFar m) in
   let stored := set_m_fadeFar (Some v) (setNeedsUpdate (Some flag) m) in
   needsUpdate (base (setFadeFar v m)) = Some flag
   /\ getFadeFar (setFadeFar v m) = Some v
   /\ setFadeFar v m = (if flag then updateDistanceFadeFeature stored else stored)
   /\ (accessors m = Registered ->
       set_fadeFar v m = setFadeFar v m /\ get_fadeFar (set_fadeFar v m) = Some v)).
Proof.
  split; cbv zeta.
  - pose proof (setFadeNear_unfold m v) as Hu. cbv zeta in Hu.
    destruct (setFadeNear_frame m v) as (_ & Hacc & Hnear & _).
    repeat split.
    + rewrite Hu. destruct (truthy (needsUpdate (base m)) || strictNe v (m_fadeNear m)).
      * apply updateDistanceFadeFeature_frame.
      * reflexivity.
    + exact Hnear.
    + exact Hu.
    + unfold set_fadeNear. rewrite H. reflexivity.
    + unfold set_fadeNear, get_fadeNear. rewrite H, Hacc, H. exact Hnear.
  - pose proof (setFadeFar_unfold m v) as Hu. cbv zeta in Hu.
    destruct (setFadeFar_frame m v) as (_ & Hacc & _ & Hfar & _).
    repeat split.
    + rewrite Hu. destruct (truthy (needsUpdate (base m)) || strictNe v (m_fadeFar m)).
      * apply updateDistanceFadeFeature_frame.
      * reflexivity.
    + exact Hfar.
    + exact Hu.
    + unfold set_fadeFar. rewrite H. reflexivity.
    + unfold set_fadeFar, get_fadeFar. rewrite H, Hacc, H. exact Hfar.
Qed.

Lemma setter_contract_witness :
  let m := Sample.settled (Some 0.2%float) (Some 0.8%float) None in
  accessors m = Registered
  /\ set_fadeNear 0.5%float m = setFadeNear 0.5%float m
  /\ get_fadeNear (set_fadeNear 0.5%float m) = Some 0.5%float
  /\ set_fadeFar 0.5%float m = setFadeFar 0.5%float m
  /\ get_fadeFar (set_fadeFar 0.5%float m) = Some 0.5%float.
Proof.
  cbv zeta.
  destruct (setter_contract (Sample.settled (Some 0.2%float) (Some 0.8%float) None) 0.5%float)
    as [(_ & _ & _ & Hn) (_ & _ & _ & Hf)].
  destruct (Hn eq_refl) as [Hn1 Hn2]. destruct (Hf eq_refl) as [Hf1 Hf2].
  repeat split; assumption.
Defined.

(** C10, as amended.  On a material whose "needs update" flag is false,
    setting [fadeNear] (respectively [fadeFar]) to the number it already
    holds, that number not being NaN, changes nothing at all: same stored
    value, flag still false, update procedure not run, defines untouched. *)
Theorem setter_same_value_noop (m : Material) (v : float) :
  needsUpdate (base m) = Some false ->
  PrimFloat.eqb v v = true ->
  (m_fadeNear m = Some v -> setFadeNear v m = m)
  /\ (m_fadeFar m = Some v -> setFadeFar v m = m).
Proof.
  intros Hflag Hv. split; intros Hst.
  - rewrite setFadeNear_unfold. rewrite Hflag, Hst. simpl. rewrite Hv. simpl.
    destruct m as [k [nu d unu tr h] acc near far_]. simpl in *. subst. reflexivity.
  - rewrite setFadeFar_unfold. rewrite Hflag, Hst. simpl. rewrite Hv. simpl.
    destruct m as [k [nu d unu tr h] acc near far_]. simpl in *. subst. reflexivity.
Qed.

Lemma setter_same_value_noop_witness :
  let m := Sample.settled (Some 0.2%float) (Some 0.8%float) None in
  needsUpdate (base m) = Some false
  /\ setFadeNear 0.2%float m = m
  /\ setFadeFar 0.8%float (Sample.settled (Some 0.8%float) (Some 0.8%float) None)
     = Sample.settled (Some 0.8%float) (Some 0.8%float) None.
Proof.
  cbv zeta. split; [reflexivity|]. split.
  - apply (setter_same_value_noop (Sample.settled (Some 0.2%float) (Some 0.8%float) None) 0.2%float);
      reflexivity.
  - apply (setter_same_value_noop (Sample.settled (Some 0.8%float) (Some 0.8%float) None) 0.8%float);
      reflexivity.
Defined.

(** C10 as stated fails at NaN: the material holds NaN in [fadeNear] and
    its flag is false; storing NaN again raises the flag and runs the
    update procedure, which also creates the defines map.  NaN is what
    [cameraToWorldDistance] returns for distance 0 and an infinite far
    plane. *)
Lemma setter_same_value_nan :
  let m := Sample.settled (Some nan) (Some nan) None in
  cameraToWorldDistance 0%float (mkCamera infinity) = nan
  /\ needsUpdate (base m) = Some false
  /\ m_fadeNear m = Some nan
  /\ needsUpdate (base (setFadeNear nan m)) = Some true
  /\ defines (base m) = None
  /\ defines (base (setFadeNear nan m)) = Some ∅
  /\ setFadeNear nan m <> m
  /\ setFadeFar nan m <> m.
Proof.
  cbv zeta. repeat split; try reflexivity.
  - intros H. apply (f_equal (fun x => needsUpdate (base x))) in H. discriminate H.
  - intros H. apply (f_equal (fun x => needsUpdate (base x))) in H. discriminate H.
Qed.

(** The defines entry after the update procedure. *)
Lemma lookupDefine_update (m : Material) :
  lookupDefine FADING_MATERIAL (updateDistanceFadeFeature m) =
  match get_fadeFar m with
  | Some f => if gtZero f then Some "" else lookupDefine FADING_MATERIAL m
  | None => lookupDefine FADING_MATERIAL m
  end.
Proof.
  rewrite updateDistanceFadeFeature_unfold. unfold lookupDefine. simpl.
  assert (Hd : default ∅ (defines (base m)) !! FADING_MATERIAL
               = match defines (base m) with Some d => d !! FADING_MATERIAL | None => None end).
  { destruct (defines (base m)); [reflexivity | apply lookup_empty]. }
  destruct (get_fadeFar m) as [f|]; [|exact Hd].
  destruct (gtZero f); [apply lookup_insert_eq | exact Hd].
Qed.

(** C1, as amended.  On a material with its accessors registered:
    assigning [fadeFar] a value [> 0] when it was [<= 0] or undefined
    leaves [FADING_MATERIAL] present in the defines map; assigning a value
    [<= 0] never inserts the define and never removes it either: the entry
    is afterwards what it was before. *)
Theorem fadeFar_define (m : Material) (v : float) :
  accessors m = Registered ->
  (gtZero v = true ->
   get_fadeFar m = None \/ (exists old, get_fadeFar m = Some old /\ leZero old = true) ->
   lookupDefine FADING_MATERIAL (set_fadeFar v m) = Some "")
  /\ (leZero v = true ->
      lookupDefine FADING_MATERIAL (set_fadeFar v m) = lookupDefine FADING_MATERIAL m).
Proof.
  intros Hacc. unfold set_fadeFar, get_fadeFar. rewrite Hacc. unfold getFadeFar.
  pose proof (setFadeFar_unfold m v) as Hu. cbv zeta in Hu. rewrite Hu. clear Hu.
  split.
  - intros Hv Hold. rewrite (NumberFacts.strictNe_positive v _ Hv Hold), orb_true_r.
    rewrite lookupDefine_update. unfold get_fadeFar. simpl. rewrite Hacc. simpl.
    rewrite Hv. reflexivity.
  - intros Hv. destruct (truthy (needsUpdate (base m)) || strictNe v (m_fadeFar m)); [|reflexivity].
    rewrite lookupDefine_update. unfold get_fadeFar. simpl. rewrite Hacc. simpl.
    rewrite (NumberFacts.leZero_not_gtZero v Hv). reflexivity.
Qed.

Lemma fadeFar_define_witness :
  let m := Sample.settled None (Some (-1)%float) None in
  let m' := Sample.settled None (Some 0.5%float) (Some {[FADING_MATERIAL := ""]}) in
  accessors m = Registered
  /\ lookupDefine FADING_MATERIAL (set_fadeFar 0.5%float m) = Some ""
  /\ lookupDefine FADING_MATERIAL (set_fadeFar 0%float m) = lookupDefine FADING_MATERIAL m
  /\ lookupDefine FADING_MATERIAL (set_fadeFar 0%float m') = lookupDefine FADING_MATERIAL m'.
Proof.
  cbv zeta. split; [reflexivity|]. split; [|split].
  - apply (fadeFar_define (Sample.settled None (Some (-1)%float) None) 0.5%float eq_refl);
      [reflexivity|]. right. exists (-1)%float. split; reflexivity.
  - apply (fadeFar_define (Sample.settled None (Some (-1)%float) None) 0%float eq_refl).
    reflexivity.
  - apply (fadeFar_define
             (Sample.settled None (Some 0.5%float) (Some {[FADING_MATERIAL := ""]}))
             0%float eq_refl).
    reflexivity.
Defined.

(** C1 as stated fails: a material built with [fadeFar = 0.5] carries the
    define; assigning [fadeFar = -1] afterwards keeps it in the map. *)
Lemma fadeFar_define_not_removed :
  let m := snd (construct Sample.superNew Sample.fadingShaderChunk
                  MapMeshBasicMaterial (Sample.params None (Some 0.5%float)) ∅) in
  accessors m = Registered
  /\ lookupDefine FADING_MATERIAL m = Some ""
  /\ leZero (-1)%float = true
  /\ get_fadeFar (set_fadeFar (-1)%float m) = Some (-1)%float
  /\ lookupDefine FADING_MATERIAL (set_fadeFar (-1)%float m) = Some ""
  /\ lookupDefine FADING_MATERIAL (set_fadeFar (-1)%float m) <> None.
Proof. cbv zeta. repeat split; try (vm_compute; reflexivity). vm_compute. discriminate. Qed.

(** ** Shader patching *)

Lemma patchText_noDollar (shaderName insertedShaderName : string) (addTab : option bool) :
  JsString.noDollar shaderName = true ->
  JsString.noDollar insertedShaderName = true ->
  JsString.noDollar (patchText shaderName insertedShaderName addTab) = true.
Proof.
  intros Hs Hi. unfold patchText, includeDirective.
  rewrite !JsStringFacts.noDollar_app, Hs, Hi.
  destruct addTab as [[]|]; reflexivity.
Qed.

Lemma insertShaderInclude_unfold (shaderContent shaderName insertedShaderName : string)
    (addTab : option bool) :
  insertShaderInclude shaderContent shaderName insertedShaderName addTab =
  JsString.replace shaderContent (includeDirective shaderName)
    (patchText shaderName insertedShaderName addTab).
Proof. reflexivity. Qed.

(** C4.  With include names free of [$] (as the four names used by the
    compile-time hook are): when the anchor directive occurs in the shader
    source, its first occurrence is replaced by a line break, the anchor
    itself, the start marker, the new include directive (behind one tab
    when [addTab] is [true], behind nothing otherwise) and the end marker,
    each on a line of its own, and the rest of the source is kept; when
    the anchor does not occur, the source is returned unchanged.  The
    compile-time hook asks for the tab on the two body insertions
    ([fog_vertex], [fog_fragment]) and not on the two declaration
    insertions. *)
Theorem insertShaderInclude_spec (shaderContent shaderName insertedShaderName : string)
    (addTab : option bool) :
  JsString.noDollar shaderName = true ->
  JsString.noDollar insertedShaderName = true ->
  let anchor := includeDirective shaderName in
  let tabChar := match addTab with Some true => JsString.tab | _ => "" end in
  (JsString.occurs anchor shaderContent ->
   exists before after,
     shaderContent = before +:+ anchor +:+ after
     /\ (forall before' after', shaderContent = before' +:+ anchor +:+ after' ->
                                String.length before <= String.length before')
     /\ insertShaderInclude shaderContent shaderName insertedShaderName addTab
        = before
          +:+ (JsString.nl +:+ anchor +:+ JsString.nl
               +:+ PATCH_START +:+ JsString.nl
               +:+ tabChar +:+ includeDirective insertedShaderName +:+ JsString.nl
               +:+ PATCH_END +:+ JsString.nl)
          +:+ after)
  /\ (~ JsString.occurs anchor shaderContent ->
      insertShaderInclude shaderContent shaderName insertedShaderName addTab = shaderContent)
  /\ (forall (m : Material) (shader : Shader) (f : float),
        get_fadeFar m = Some f -> leZero f = false ->
        vertexShader (onBeforeCompile m shader)
        = insertShaderInclude
            (insertShaderInclude (vertexShader shader) "fog_pars_vertex" "fading_pars_vertex" None)
            "fog_vertex" "fading_vertex" (Some true)
        /\ fragmentShader (onBeforeCompile m shader)
           = insertShaderInclude
               (insertShaderInclude (fragmentShader shader) "fog_pars_fragment" "fading_pars_fragment" None)
               "fog_fragment" "fading_fragment" (Some true)).
Proof.
  intros Hs Hi anchor tabChar. rewrite insertShaderInclude_unfold.
  pose proof (patchText_noDollar shaderName insertedShaderName addTab Hs Hi) as Hp.
  split; [|split].
  - intros Ho. destruct (JsStringFacts.occurs_splitFirst _ _ Ho) as (before & after & Hsplit).
    destruct (JsStringFacts.splitFirst_Some _ _ _ _ Hsplit) as [Heq Hmin].
    exists before, after. split; [exact Heq|]. split; [exact Hmin|].
    exact (JsStringFacts.replace_found _ _ _ _ _ Hp Hsplit).
  - apply JsStringFacts.replace_absent.
  - intros m shader f Hf Hle. unfold onBeforeCompile. rewrite Hf, Hle. split; reflexivity.
Qed.

Lemma insertShaderInclude_spec_witness :
  JsString.occurs (includeDirective "fog_vertex") Sample.vertexSource
  /\ insertShaderInclude Sample.vertexSource "fog_vertex" "fading_vertex" (Some true)
     = ("#include <fog_pars_vertex>" +:+ JsString.nl +:+ "void main() {" +:+ JsString.nl +:+ JsString.tab)
       +:+ (JsString.nl +:+ "#include <fog_vertex>" +:+ JsString.nl
            +:+ PATCH_START +:+ JsString.nl
            +:+ JsString.tab +:+ "#include <fading_vertex>" +:+ JsString.nl
            +:+ PATCH_END +:+ JsString.nl)
       +:+ (JsString.nl +:+ "}")
  /\ insertShaderInclude Sample.vertexSource "fog_fragment" "fading_fragment" (Some true)
     = Sample.vertexSource
  /\ vertexShader (onBeforeCompile (Sample.settled None (Some 0.5%float) None) Sample.sampleShader)
     = insertShaderInclude
         (insertShaderInclude (vertexShader Sample.sampleShader) "fog_pars_vertex" "fading_pars_vertex" None)
         "fog_vertex" "fading_vertex" (Some true).
Proof.
  assert (Hocc : JsString.occurs (includeDirective "fog_vertex") Sample.vertexSource).
  { exists ("#include <fog_pars_vertex>" +:+ JsString.nl +:+ "void main() {" +:+ JsString.nl +:+ JsString.tab),
           (JsString.nl +:+ "}").
    reflexivity. }
  destruct (insertShaderInclude_spec Sample.vertexSource "fog_vertex" "fading_vertex" (Some true)
              eq_refl eq_refl) as (Hfound & _ & Hhook).
  destruct (insertShaderInclude_spec Sample.vertexSource "fog_fragment" "fading_fragment" (Some true)
              eq_refl eq_refl) as (_ & Habsent & _).
  split; [exact Hocc|]. split; [|split].
  - destruct (Hfound Hocc) as (before & after & _ & _ & Hres). reflexivity.
  - apply Habsent. intros Ho.
    destruct (JsStringFacts.occurs_splitFirst _ _ Ho) as (b & a & Hsplit).
    vm_compute in Hsplit. discriminate Hsplit.
  - destruct (Hhook (Sample.settled None (Some 0.5%float) None) Sample.sampleShader 0.5%float
                eq_refl eq_refl) as [Hvertex _].
    exact Hvertex.
Defined.

(** C5.  When the material's [fadeFar] reads undefined or [<= 0], the
    compile-time hook returns the shader as it received it: vertex and
    fragment sources unchanged, no [fadeNear]/[fadeFar] uniform added.
    The same holds when the hook is called through the material's
    [onBeforeCompile] property, whichever function is installed there. *)
Theorem onBeforeCompile_disabled (m : Material) (shader : Shader) :
  get_fadeFar m = None \/ (exists f, get_fadeFar m = Some f /\ leZero f = true) ->
  onBeforeCompile m shader = shader
  /\ callOnBeforeCompile m shader = shader
  /\ uniforms (onBeforeCompile m shader) = uniforms shader
  /\ vertexShader (onBeforeCompile m shader) = vertexShader shader
  /\ fragmentShader (onBeforeCompile m shader) = fragmentShader shader.
Proof.
  intros H.
  assert (E : onBeforeCompile m shader = shader).
  { unfold onBeforeCompile. destruct H as [->|(f & -> & ->)]; reflexivity. }
  unfold callOnBeforeCompile. rewrite E.
  repeat split; try reflexivity. destruct (onBeforeCompile_hook (base m)); reflexivity.
Qed.

Lemma onBeforeCompile_disabled_witness :
  onBeforeCompile (Sample.settled (Some 0.2%float) None None) Sample.sampleShader = Sample.sampleShader
  /\ onBeforeCompile (Sample.settled (Some 0.2%float) (Some (-1)%float) None) Sample.sampleShader
     = Sample.sampleShader.
Proof.
  split.
  - apply (onBeforeCompile_disabled (Sample.settled (Some 0.2%float) None None) Sample.sampleShader).
    left. reflexivity.
  - apply (onBeforeCompile_disabled (Sample.settled (Some 0.2%float) (Some (-1)%float) None)
             Sample.sampleShader).
    right. exists (-1)%float. split; reflexivity.
Defined.

(** ** Render hooks *)

Lemma pushUniforms_material (renderer : WebGLRenderer) (material : Material) :
  materialOf (pushUniforms renderer material) = material
  \/ materialOf (pushUniforms renderer material) = setUniformsNeedUpdate (Some true) material.
Proof.
  unfold pushUniforms.
  destruct (shader (properties renderer)) as [s|]; [|left; reflexivity].
  destruct (assignUniformValue "fadeNear" _ s) as [s1|]; [|left; reflexivity].
  destruct (assignUniformValue "fadeFar" _ s1) as [s2|]; [right | left]; reflexivity.
Qed.

(** The material as the before-render hook has it once both distances are
    assigned. *)
Lemma beforeRenderHook_material {X : Type} (P : Material -> X)
    (n f : option float) (force updateUniforms : bool) (cb : option Callback)
    (renderer : WebGLRenderer) (camera : Camera) (material : Material) :
  (forall b m, P (setUniformsNeedUpdate b m) = P m) ->
  callbackKeeps P cb ->
  P (materialOf (beforeRenderHook n f force updateUniforms cb renderer camera material))
  = P (set_fadeFar (worldDistance f DEFAULT_FADE_FAR camera)
         (set_fadeNear (worldDistance n DEFAULT_FADE_NEAR camera)
            (if force then setTransparent (Some true) material else material))).
Proof.
  intros Hframe Hcb. unfold beforeRenderHook.
  fold (worldDistance n DEFAULT_FADE_NEAR camera). fold (worldDistance f DEFAULT_FADE_FAR camera).
  set (m3 := set_fadeFar _ _).
  assert (Hpush : forall r4 : RenderResult,
             P (materialOf r4) = P m3 ->
             P (materialOf
                  match completionOf r4 with
                  | Throw _ => r4
                  | Normal => match cb with
                              | Some callback => callback (rendererOf r4) (materialOf r4)
                              | None => r4
                              end
                  end) = P m3).
  { intros r4 H4. destruct (completionOf r4); [|exact H4].
    destruct cb as [callback|]; [|exact H4].
    rewrite (Hcb callback eq_refl). exact H4. }
  apply Hpush. destruct updateUniforms; [|reflexivity].
  destruct (pushUniforms_material renderer m3) as [->| ->]; [reflexivity | apply Hframe].
Qed.

Lemma set_fade_registered (x y : float) (m : Material) :
  accessors m = Registered ->
  get_fadeNear (set_fadeFar y (set_fadeNear x m)) = Some x
  /\ get_fadeFar (set_fadeFar y (set_fadeNear x m)) = Some y.
Proof.
  intros Hacc. unfold set_fadeNear. rewrite Hacc.
  destruct (setFadeNear_frame m x) as (_ & Hacc1 & Hnear1 & _).
  unfold set_fadeFar. rewrite Hacc1, Hacc.
  destruct (setFadeFar_frame (setFadeNear x m) y) as (_ & Hacc2 & Hnear2 & Hfar2 & _).
  unfold get_fadeNear, get_fadeFar, getFadeNear, getFadeFar.
  rewrite Hacc2, Hacc1, Hacc, Hnear2, Hnear1, Hfar2. split; reflexivity.
Qed.

Lemma set_fade_transparent (x y : float) (m : Material) :
  transparent (base (set_fadeFar y (set_fadeNear x m))) = transparent (base m).
Proof.
  unfold set_fadeFar, set_fadeNear.
  destruct (accessors m) eqn:Hacc; rewrite ?Hacc; [reflexivity|].
  destruct (setFadeNear_frame m x) as (_ & -> & _ & _ & Htr1).
  rewrite Hacc.
  destruct (setFadeFar_frame (setFadeNear x m) y) as (_ & _ & _ & _ & ->).
  exact Htr1.
Qed.

(** C2.  On a material with its accessors registered, one run of the
    before-render hook installed by [addRenderHelper] stores
    [fadeNear = n * far] and [fadeFar = f * far] for the configured
    normalized values [n], [f] that were supplied ([far] the camera's far
    plane, [*] the multiplication of numbers), and the sentinel [-1.0] for
    each one that was not supplied; the values are read back through the
    material's properties after the hook, whether it ended normally or
    threw while pushing uniforms, provided the caller's own callback does
    not assign them again. *)
Theorem beforeRender_world_distances (object : Object3D) (n f : option float)
    (force updateUniforms : bool) (cb : option Callback)
    (renderer : WebGLRenderer) (camera : Camera) (material : Material) :
  accessors material = Registered ->
  callbackKeeps get_fadeNear cb ->
  callbackKeeps get_fadeFar cb ->
  let result :=
    onBeforeRender (addRenderHelper object n f force updateUniforms cb) renderer camera material in
  get_fadeNear (materialOf result)
  = Some (match n with
          | Some n' => PrimFloat.mul n' (far camera)
          | None => (-1)%float
          end)
  /\ get_fadeFar (materialOf result)
     = Some (match f with
             | Some f' => PrimFloat.mul f' (far camera)
             | None => (-1)%float
             end).
Proof.
  intros Hacc Hn Hf result.
  assert (Hres : result = beforeRenderHook n f force updateUniforms cb renderer camera material).
  { unfold result, addRenderHelper. destruct force; reflexivity. }
  rewrite Hres.
  rewrite (beforeRenderHook_material get_fadeNear) by (reflexivity || assumption).
  rewrite (beforeRenderHook_material get_fadeFar) by (reflexivity || assumption).
  assert (Hacc' : accessors (if force then setTransparent (Some true) material else material)
                  = Registered) by (destruct force; exact Hacc).
  destruct (set_fade_registered (worldDistance n DEFAULT_FADE_NEAR camera)
              (worldDistance f DEFAULT_FADE_FAR camera) _ Hacc') as [-> ->].
  split; [destruct n | destruct f]; reflexivity.
Qed.

Lemma beforeRender_world_distances_witness :
  let material := Sample.settled None None None in
  let hooked n f := addRenderHelper newObject3D n f true false (Some Sample.markDirty) in
  accessors material = Registered
  /\ get_fadeNear (materialOf (onBeforeRender (hooked (Some 0.1%float) (Some 0.5%float))
                                 Sample.idleRenderer Sample.camera1000 material)) = Some 100%float
  /\ get_fadeFar (materialOf (onBeforeRender (hooked (Some 0.1%float) (Some 0.5%float))
                                Sample.idleRenderer Sample.camera1000 material)) = Some 500%float
  /\ get_fadeNear (materialOf (onBeforeRender (hooked None None)
                                 Sample.idleRenderer Sample.camera1000 material)) = Some (-1)%float
  /\ get_fadeFar (materialOf (onBeforeRender (hooked None None)
                                Sample.idleRenderer Sample.camera1000 material)) = Some (-1)%float.
Proof.
  cbv zeta.
  assert (Hn : callbackKeeps get_fadeNear (Some Sample.markDirty)).
  { intros callback Hcb r m. injection Hcb as <-. reflexivity. }
  assert (Hf : callbackKeeps get_fadeFar (Some Sample.markDirty)).
  { intros callback Hcb r m. injection Hcb as <-. reflexivity. }
  destruct (beforeRender_world_distances newObject3D (Some 0.1%float) (Some 0.5%float) true false
              (Some Sample.markDirty) Sample.idleRenderer Sample.camera1000
              (Sample.settled None None None) eq_refl Hn Hf) as [H1 H2].
  destruct (beforeRender_world_distances newObject3D None None true false
              (Some Sample.markDirty) Sample.idleRenderer Sample.camera1000
              (Sample.settled None None None) eq_refl Hn Hf) as [H3 H4].
  split; [reflexivity|]. repeat split; assumption.
Defined.

(** C6, as amended.  With [forceMaterialToTransparent = true] the
    before-render hook leaves [transparent = true] on the material and the
    after-render hook leaves [transparent = false].  With
    [forceMaterialToTransparent = false] the before-render hook leaves
    [transparent] as it found it, and [addRenderHelper] installs no
    after-render hook: the object keeps the one it had, so [transparent]
    is left untouched after the render exactly when that earlier hook
    leaves it untouched, as the empty hook of a plain [THREE.Object3D]
    does.  The caller's own callback is assumed not to assign
    [transparent]. *)
Theorem transparent_around_render (object : Object3D) (n f : option float)
    (updateUniforms : bool) (cb : option Callback)
    (renderer : WebGLRenderer) (camera : Camera) (material : Material) :
  callbackKeeps (fun m => transparent (base m)) cb ->
  (let o := addRenderHelper object n f true updateUniforms cb in
   transparent (base (materialOf (onBeforeRender o renderer camera material))) = Some true
   /\ transparent (base (materialOf (onAfterRender o renderer camera material))) = Some false)
  /\
  (let o := addRenderHelper object n f false updateUniforms cb in
   transparent (base (materialOf (onBeforeRender o renderer camera material)))
   = transparent (base material)
   /\ onAfterRender o = onAfterRender object
   /\ (transparent (base (materialOf (onAfterRender o renderer camera material)))
        = transparent (base material)
        <-> transparent (base (materialOf (onAfterRender object renderer camera material)))
            = transparent (base material)))
  /\
  (let o := addRenderHelper newObject3D n f false updateUniforms cb in
   transparent (base (materialOf (onAfterRender o renderer camera material)))
   = transparent (base material)).
Proof.
  intros Hcb. cbv zeta. unfold addRenderHelper. simpl.
  rewrite !(beforeRenderHook_material (fun m => transparent (base m))) by (reflexivity || assumption).
  rewrite !set_fade_transparent.
  split; [split; reflexivity|]. split; [|reflexivity].
  split; [reflexivity|]. split; [reflexivity|]. split; intros H; exact H.
Qed.

Lemma transparent_around_render_witness :
  let material := Sample.settled (Some 0.2%float) (Some 0.8%float) None in
  let forced := addRenderHelper newObject3D (Some 0.1%float) (Some 0.5%float) true true
                  (Some Sample.markDirty) in
  let plain := addRenderHelper newObject3D (Some 0.1%float) (Some 0.5%float) false true
                 (Some Sample.markDirty) in
  transparent (base material) = Some false
  /\ transparent (base (materialOf (onBeforeRender forced Sample.idleRenderer Sample.camera1000
                                      material))) = Some true
  /\ transparent (base (materialOf (onAfterRender forced Sample.idleRenderer Sample.camera1000
                                      (setTransparent (Some true) material)))) = Some false
  /\ transparent (base (materialOf (onBeforeRender plain Sample.idleRenderer Sample.camera1000
                                      (setTransparent (Some true) material)))) = Some true
  /\ transparent (base (materialOf (onAfterRender plain Sample.idleRenderer Sample.camera1000
                                      (setTransparent (Some true) material)))) = Some true.
Proof.
  cbv zeta.
  assert (Hcb : callbackKeeps (fun m => transparent (base m)) (Some Sample.markDirty)).
  { intros callback Hc r m. injection Hc as <-. reflexivity. }
  destruct (transparent_around_render newObject3D (Some 0.1%float) (Some 0.5%float) true
              (Some Sample.markDirty) Sample.idleRenderer Sample.camera1000
              (Sample.settled (Some 0.2%float) (Some 0.8%float) None) Hcb)
    as ((Hb & _) & _ & _).
  destruct (transparent_around_render newObject3D (Some 0.1%float) (Some 0.5%float) true
              (Some Sample.markDirty) Sample.idleRenderer Sample.camera1000
              (setTransparent (Some true) (Sample.settled (Some 0.2%float) (Some 0.8%float) None)) Hcb)
    as ((_ & Ha) & (Hpb & _ & Hkept) & _).
  split; [reflexivity|]. split; [exact Hb|]. split; [exact Ha|]. split; [exact Hpb|].
  apply Hkept. reflexivity.
Defined.

(** C6 as stated fails on an object that already went through a forced
    call: the later call with [forceMaterialToTransparent = false] leaves
    the earlier after-render hook on the object, and that hook sets
    [transparent] to false on a material that was transparent. *)
Lemma transparent_reset_by_kept_hook :
  let material := setTransparent (Some true) (Sample.settled (Some 0.2%float) (Some 0.8%float) None) in
  let first := addRenderHelper newObject3D (Some 0.1%float) (Some 0.5%float) true false None in
  let second := addRenderHelper first (Some 0.1%float) (Some 0.5%float) false false None in
  transparent (base material) = Some true
  /\ transparent (base (materialOf (onBeforeRender second Sample.idleRenderer Sample.camera1000
                                      material))) = Some true
  /\ transparent (base (materialOf (onAfterRender second Sample.idleRenderer Sample.camera1000
                                      material))) = Some false
  /\ transparent (base (materialOf (onAfterRender second Sample.idleRenderer Sample.camera1000
                                      material))) <> transparent (base material).
Proof.
  cbv zeta. split; [reflexivity|]. split; [reflexivity|]. split; [reflexivity|].
  intros H. discriminate H.
Qed.

(** ** Construction, cloning and the global shader chunks *)

Section ClassFacts.

Variable ThreeParameters : Type.
Variable superNew : MaterialKind -> option (MaterialParameters ThreeParameters) -> ThreeMaterial.
Variable superCopy : ThreeMaterial -> ThreeMaterial -> ThreeMaterial.
Variable fadingShaderChunk : gmap string string.

Lemma applyFadingParameters_both (a b : float) (this : Material) :
  accessors (applyFadingParameters (Some (mkFadingFeatureParameters (Some a) (Some b))) this)
  = accessors this
  /\ m_fadeNear (applyFadingParameters (Some (mkFadingFeatureParameters (Some a) (Some b))) this)
     = Some a
  /\ m_fadeFar (applyFadingParameters (Some (mkFadingFeatureParameters (Some a) (Some b))) this)
     = Some b.
Proof.
  unfold applyFadingParameters. simpl.
  destruct (setFadeNear_frame this a) as (_ & Hacc1 & Hnear1 & _).
  destruct (setFadeFar_frame (setFadeNear a this) b) as (_ & Hacc2 & Hnear2 & Hfar2 & _).
  rewrite Hacc2, Hacc1, Hnear2, Hnear1, Hfar2. repeat split; reflexivity.
Qed.

Lemma construct_registered (k : MaterialKind)
    (params : option (MaterialParameters ThreeParameters)) (ShaderChunk : gmap string string) :
  accessors (snd (construct superNew fadingShaderChunk k params ShaderChunk)) = Registered
  /\ kind (snd (construct superNew fadingShaderChunk k params ShaderChunk)) = k.
Proof.
  unfold construct, applyFadingParameters, addFadingProperties. simpl.
  destruct params as [[p [[a|] [b|]]]|]; simpl;
    repeat match goal with
           | |- context [setFadeFar ?v ?m] =>
               destruct (setFadeFar_frame m v) as (-> & -> & _); simpl
           | |- context [setFadeNear ?v ?m] =>
               destruct (setFadeNear_frame m v) as (-> & -> & _); simpl
           end; split; reflexivity.
Qed.

(** Cloning a material whose accessors are registered gives an instance
    that reads back the source's two distances. *)
Lemma clone_reads_source (a b : float) (A : Material) (ShaderChunk : gmap string string) :
  accessors A = Registered ->
  m_fadeNear A = Some a ->
  m_fadeFar A = Some b ->
  get_fadeNear (snd (clone superNew superCopy fadingShaderChunk A ShaderChunk)) = Some a
  /\ get_fadeFar (snd (clone superNew superCopy fadingShaderChunk A ShaderChunk)) = Some b.
Proof.
  intros Hacc Hnear Hfar. unfold clone.
  destruct (construct superNew fadingShaderChunk (kind A) None ShaderChunk)
    as [ShaderChunk' fresh] eqn:E.
  pose proof (construct_registered (kind A) None ShaderChunk) as [Hreg _].
  rewrite E in Hreg. simpl in Hreg. simpl.
  unfold copy, copyFadingParameters, get_fadeNear, get_fadeFar, getFadeNear, getFadeFar.
  rewrite Hacc, Hnear, Hfar.
  set (this1 := setBase _ fresh).
  destruct (setFadeNear_frame this1 a) as (_ & Hacc1 & Hnear1 & _).
  destruct (setFadeFar_frame (setFadeNear a this1) b) as (_ & Hacc2 & Hnear2 & Hfar2 & _).
  rewrite Hacc2, Hacc1, Hnear2, Hnear1, Hfar2. unfold this1. simpl. rewrite Hreg.
  split; reflexivity.
Qed.

(** C7.  A material of either class constructed with
    [{fadeNear: 0.2, fadeFar: 0.8}] and then cloned: the clone's
    [fadeNear] reads exactly [0.2] and its [fadeFar] exactly [0.8]. *)
Theorem clone_round_trip (k : MaterialKind) (p : ThreeParameters)
    (ShaderChunk : gmap string string) :
  let params :=
    Some (mkMaterialParameters p (mkFadingFeatureParameters (Some 0.2%float) (Some 0.8%float))) in
  let A := construct superNew fadingShaderChunk k params ShaderChunk in
  let B := clone superNew superCopy fadingShaderChunk (snd A) (fst A) in
  get_fadeNear (snd B) = Some 0.2%float
  /\ get_fadeFar (snd B) = Some 0.8%float
  /\ kind (snd B) = k.
Proof.
  intros params A B.
  pose proof (construct_registered k params ShaderChunk) as [Hreg Hk].
  assert (HA : m_fadeNear (snd A) = Some 0.2%float /\ m_fadeFar (snd A) = Some 0.8%float).
  { unfold A, construct, params. simpl.
    destruct (applyFadingParameters_both 0.2%float 0.8%float
                (addFadingProperties
                   (mkMaterial k (superNew k params) Placeholder None None)))
      as (_ & H1 & H2).
    split; [exact H1 | exact H2]. }
  destruct HA as [Hnear Hfar].
  destruct (clone_reads_source 0.2%float 0.8%float (snd A) (fst A) Hreg Hnear Hfar) as [H1 H2].
  split; [exact H1|]. split; [exact H2|].
  unfold B, clone.
  destruct (construct superNew fadingShaderChunk (kind (snd A)) None (fst A))
    as [ShaderChunk' fresh] eqn:E.
  pose proof (construct_registered (kind (snd A)) None (fst A)) as [_ Hk'].
  rewrite E in Hk'. simpl in Hk'. simpl.
  unfold copy, copyFadingParameters.
  repeat match goal with
         | |- context [setFadeFar ?v ?m] => destruct (setFadeFar_frame m v) as (-> & _)
         | |- context [setFadeNear ?v ?m] => destruct (setFadeNear_frame m v) as (-> & _)
         end.
  simpl. rewrite Hk'. exact Hk.
Qed.

Lemma patch_stable (ShaderChunk : gmap string string) :
  unpatched ShaderChunk = false ->
  patchGlobalShaderChunks fadingShaderChunk ShaderChunk = ShaderChunk.
Proof. intros H. unfold patchGlobalShaderChunks. rewrite H. reflexivity. Qed.

Lemma patch_patched (ShaderChunk : gmap string string) :
  is_Some (fadingShaderChunk !! "fading_pars_vertex") ->
  unpatched (patchGlobalShaderChunks fadingShaderChunk ShaderChunk) = false.
Proof.
  intros [text Htext]. unfold patchGlobalShaderChunks.
  destruct (unpatched ShaderChunk) eqn:E; [|exact E].
  unfold unpatched. rewrite (lookup_union_Some_l _ _ _ _ Htext). reflexivity.
Qed.

Lemma construct_registry (k : MaterialKind)
    (params : option (MaterialParameters ThreeParameters)) (ShaderChunk : gmap string string) :
  fst (construct superNew fadingShaderChunk k params ShaderChunk)
  = patchGlobalShaderChunks fadingShaderChunk ShaderChunk.
Proof. reflexivity. Qed.

Lemma constructAll_cons (k : MaterialKind) (params : option (MaterialParameters ThreeParameters))
    (rest : list (MaterialKind * option (MaterialParameters ThreeParameters)))
    (ShaderChunk : gmap string string) :
  fst (constructAll superNew fadingShaderChunk ((k, params) :: rest) ShaderChunk)
  = fst (constructAll superNew fadingShaderChunk rest
           (patchGlobalShaderChunks fadingShaderChunk ShaderChunk)).
Proof.
  simpl. destruct (constructAll superNew fadingShaderChunk rest _) as [r ms]. reflexivity.
Qed.

Lemma assignCount_cons (k : MaterialKind) (params : option (MaterialParameters ThreeParameters))
    (rest : list (MaterialKind * option (MaterialParameters ThreeParameters)))
    (ShaderChunk : gmap string string) :
  assignCount superNew fadingShaderChunk ((k, params) :: rest) ShaderChunk
  = (if unpatched ShaderChunk then 1 else 0)
    + assignCount superNew fadingShaderChunk rest
        (patchGlobalShaderChunks fadingShaderChunk ShaderChunk).
Proof. reflexivity. Qed.

(** Once the registry is patched, constructions neither change it nor
    run [Object.assign]. *)
Lemma constructAll_patched (calls : list (MaterialKind * option (MaterialParameters ThreeParameters)))
    (ShaderChunk : gmap string string) :
  unpatched ShaderChunk = false ->
  fst (constructAll superNew fadingShaderChunk calls ShaderChunk) = ShaderChunk
  /\ assignCount superNew fadingShaderChunk calls ShaderChunk = 0.
Proof.
  intros Hp. induction calls as [|[k params] rest [IHr IHc]]; [split; reflexivity|].
  rewrite constructAll_cons, assignCount_cons, (patch_stable _ Hp), Hp, IHc.
  split; [exact IHr | reflexivity].
Qed.

(** C9.  With [fading_pars_vertex] among the fading chunks: over any
    run of one or more constructions of the two classes, in any mix,
    [Object.assign] runs on the registry at most once; the first
    construction leaves it patched, every later construction finds it
    patched and leaves it exactly as it is, so the registry at the end
    is the registry after the first construction. *)
Theorem patch_applied_once (calls : list (MaterialKind * option (MaterialParameters ThreeParameters)))
    (ShaderChunk : gmap string string) :
  is_Some (fadingShaderChunk !! "fading_pars_vertex") ->
  calls <> [] ->
  assignCount superNew fadingShaderChunk calls ShaderChunk <= 1
  /\ forall first rest, calls = first :: rest ->
       let after1 := fst (construct superNew fadingShaderChunk first.1 first.2 ShaderChunk) in
       after1 = patchGlobalShaderChunks fadingShaderChunk ShaderChunk
       /\ unpatched after1 = false
       /\ assignCount superNew fadingShaderChunk rest after1 = 0
       /\ fst (constructAll superNew fadingShaderChunk calls ShaderChunk) = after1
       /\ forall pre later post, rest = (pre ++ later :: post)%list ->
            let before := fst (constructAll superNew fadingShaderChunk pre after1) in
            before = after1
            /\ unpatched before = false
            /\ fst (construct superNew fadingShaderChunk later.1 later.2 before) = before.
Proof.
  intros Hkey Hne. destruct calls as [|[k params] rest]; [congruence|]. clear Hne.
  pose proof (patch_patched ShaderChunk Hkey) as Hp.
  destruct (constructAll_patched rest _ Hp) as [Hrest Hcount].
  split.
  - rewrite assignCount_cons, Hcount. destruct (unpatched ShaderChunk); simpl; lia.
  - intros first rest' Heq. injection Heq as <- <-. cbv zeta.
    rewrite construct_registry, constructAll_cons.
    split; [reflexivity|]. split; [exact Hp|]. split; [exact Hcount|]. split; [exact Hrest|].
    intros pre later post Hsplit. rewrite construct_registry.
      destruct (constructAll_patched pre _ Hp) as [Hpre _]. rewrite Hpre.
      split; [reflexivity|]. split; [exact Hp|]. apply patch_stable, Hp.
Qed.

End ClassFacts.

Lemma patch_applied_once_witness :
  let calls := [ (MapMeshBasicMaterial, Sample.params (Some 0.2%float) (Some 0.8%float));
                 (MapMeshStandardMaterial, None);
                 (MapMeshBasicMaterial, Sample.params None None) ] in
  is_Some (Sample.fadingShaderChunk !! "fading_pars_vertex")
  /\ assignCount Sample.superNew Sample.fadingShaderChunk calls Sample.stockChunks <= 1
  /\ fst (constructAll Sample.superNew Sample.fadingShaderChunk calls Sample.stockChunks)
     = patchGlobalShaderChunks Sample.fadingShaderChunk Sample.stockChunks.
Proof.
  cbv zeta.
  assert (Hkey : is_Some (Sample.fadingShaderChunk !! "fading_pars_vertex")).
  { exists "varying float vFade;". reflexivity. }
  split; [exact Hkey|].
  destruct (patch_applied_once unit Sample.superNew Sample.fadingShaderChunk
              [ (MapMeshBasicMaterial, Sample.params (Some 0.2%float) (Some 0.8%float));
                (MapMeshStandardMaterial, None);
                (MapMeshBasicMaterial, Sample.params None None) ]
              Sample.stockChunks Hkey ltac:(discriminate)) as [Hcount Hrun].
  split; [exact Hcount|].
  destruct (Hrun _ _ eq_refl) as (Hfirst & _ & _ & Hend & _).
  rewrite Hend. exact Hfirst.
Defined.

(** The round trip on the sample THREE, by evaluation: the clone is a new
    instance of the same class, with both distances and the define. *)
Example clone_sample :
  let A := construct Sample.superNew Sample.fadingShaderChunk MapMeshStandardMaterial
             (Sample.params (Some 0.2%float) (Some 0.8%float)) Sample.stockChunks in
  let B := clone Sample.superNew Sample.superCopy Sample.fadingShaderChunk (snd A) (fst A) in
  get_fadeNear (snd B) = Some 0.2%float
  /\ get_fadeFar (snd B) = Some 0.8%float
  /\ lookupDefine FADING_MATERIAL (snd B) = Some ""
  /\ lookupDefine "STANDARD" (snd B) = Some ""
  /\ fst B = fst A.
Proof. vm_compute. repeat split; reflexivity. Qed.

(** The spec's own example of the before-render hook, by evaluation. *)
Example cameraToWorldDistance_sample :
  cameraToWorldDistance 0.1%float Sample.camera1000 = 100%float
  /\ cameraToWorldDistance 0.5%float Sample.camera1000 = 500%float.
Proof. split; reflexivity. Qed.

(** * Further properties of the code *)

(** ** Order and equality of numbers *)

Module NumberOrder.

(** Numbers that compare equal with [===] are on the same side of zero. *)
Lemma eqb_gtZero (x y : float) : PrimFloat.eqb x y = true -> gtZero x = gtZero y.
Proof.
  unfold gtZero. rewrite FloatAxioms.eqb_spec, !FloatAxioms.ltb_spec.
  replace (Prim2SF 0) with (S754_zero false) by reflexivity.
  destruct (Prim2SF x) as [[]|[]| |[] ? ?], (Prim2SF y) as [[]|[]| |[] ? ?];
    cbn; try discriminate; reflexivity.
Qed.

(** Away from NaN, [x > 0.0] is the negation of [x <= 0.0]. *)
Lemma gtZero_not_leZero (x : float) :
  PrimFloat.eqb x x = true -> gtZero x = negb (leZero x).
Proof.
  unfold gtZero, leZero.
  rewrite FloatAxioms.eqb_spec, FloatAxioms.ltb_spec, FloatAxioms.leb_spec.
  replace (Prim2SF 0) with (S754_zero false) by reflexivity.
  destruct (Prim2SF x) as [[]|[]| |[] ? ?]; cbn; try discriminate; reflexivity.
Qed.

(** NaN is neither [> 0.0] nor [<= 0.0]. *)
Lemma nan_unordered (x : float) :
  PrimFloat.eqb x x = false -> gtZero x = false /\ leZero x = false.
Proof.
  unfold gtZero, leZero.
  rewrite FloatAxioms.eqb_spec, FloatAxioms.ltb_spec, FloatAxioms.leb_spec.
  replace (Prim2SF 0) with (S754_zero false) by reflexivity.
  destruct (Prim2SF x) as [[]|[]| |[] m e]; cbn; try discriminate; try (split; reflexivity).
  - rewrite Z.compare_refl, Pos.compare_cont_refl. discriminate.
  - rewrite Z.compare_refl, Pos.compare_cont_refl. discriminate.
Qed.

End NumberOrder.

(** ** The compile-time hook when fading is on *)

Lemma onBeforeCompile_uniforms (m : Material) (shader : Shader) (f : float) :
  get_fadeFar m = Some f -> leZero f = false ->
  uniforms (onBeforeCompile m shader)
  = <["fadeFar" := mkUniform (Number f)]>
      (<["fadeNear" := mkUniform (anyOfNumber (get_fadeNear m))]> (uniforms shader)).
Proof. intros Hf Hle. unfold onBeforeCompile. rewrite Hf, Hle. reflexivity. Qed.

(** X1.  When the material's [fadeFar] is a number that is not [<= 0], the
    compile-time hook leaves a [fadeNear] uniform holding the material's
    current [fadeNear] (undefined when it has none) and a [fadeFar] uniform
    holding its [fadeFar]; every other uniform of the shader is kept as it
    was. *)
Theorem onBeforeCompile_registers_uniforms (m : Material) (shader : Shader) (f : float) :
  get_fadeFar m = Some f ->
  leZero f = false ->
  uniforms (onBeforeCompile m shader) !! "fadeNear"
  = Some (mkUniform (anyOfNumber (get_fadeNear m)))
  /\ uniforms (onBeforeCompile m shader) !! "fadeFar" = Some (mkUniform (Number f))
  /\ (forall name, name <> "fadeNear" -> name <> "fadeFar" ->
        uniforms (onBeforeCompile m shader) !! name = uniforms shader !! name)
  /\ hasFadingUniforms (onBeforeCompile m shader).
Proof.
  intros Hf Hle. rewrite (onBeforeCompile_uniforms m shader f Hf Hle).
  assert (Hnear : (<["fadeFar" := mkUniform (Number f)]>
                     (<["fadeNear" := mkUniform (anyOfNumber (get_fadeNear m))]> (uniforms shader)))
                  !! "fadeNear" = Some (mkUniform (anyOfNumber (get_fadeNear m)))).
  { rewrite lookup_insert_ne by discriminate. apply lookup_insert_eq. }
  assert (Hfar : (<["fadeFar" := mkUniform (Number f)]>
                    (<["fadeNear" := mkUniform (anyOfNumber (get_fadeNear m))]> (uniforms shader)))
                 !! "fadeFar" = Some (mkUniform (Number f))) by apply lookup_insert_eq.
  split; [exact Hnear|]. split; [exact Hfar|]. split.
  - intros name Hn1 Hn2. rewrite !lookup_insert_ne by congruence. reflexivity.
  - unfold hasFadingUniforms. rewrite (onBeforeCompile_uniforms m shader f Hf Hle), Hnear, Hfar.
    split; eexists; reflexivity.
Qed.

Lemma onBeforeCompile_registers_uniforms_witness :
  let m := Sample.settled None (Some 0.5%float) None in
  let s := mkShader {["diffuse" := mkUniform (Opaque 7)]} Sample.vertexSource Sample.fragmentSource in
  uniforms (onBeforeCompile m s) !! "fadeNear" = Some (mkUniform Undefined)
  /\ uniforms (onBeforeCompile m s) !! "fadeFar" = Some (mkUniform (Number 0.5%float))
  /\ uniforms (onBeforeCompile m s) !! "diffuse" = Some (mkUniform (Opaque 7)).
Proof.
  cbv zeta.
  destruct (onBeforeCompile_registers_uniforms
              (Sample.settled None (Some 0.5%float) None)
              (mkShader {["diffuse" := mkUniform (Opaque 7)]} Sample.vertexSource Sample.fragmentSource)
              0.5%float eq_refl eq_refl) as (Hnear & Hfar & Hother & _).
  split; [exact Hnear|]. split; [exact Hfar|].
  rewrite (Hother "diffuse") by discriminate. apply lookup_singleton_eq.
Defined.

(** X2.  The define and the shader patch are decided by two different
    tests, [fadeFar > 0.0] and [fadeFar <= 0.0].  On a material without
    the define and a shader without a [fadeFar] uniform: for every
    [fadeFar] that is not NaN the two agree, the update procedure adds the
    define exactly when the compile-time hook registers the uniform; for
    NaN they do not, the define stays out and the shader is patched all the
    same. *)
Theorem define_and_patch_agree (m : Material) (shader : Shader) (f : float) :
  get_fadeFar m = Some f ->
  lookupDefine FADING_MATERIAL m = None ->
  uniforms shader !! "fadeFar" = None ->
  (PrimFloat.eqb f f = true ->
   (lookupDefine FADING_MATERIAL (updateDistanceFadeFeature m) = Some ""
    <-> uniforms (onBeforeCompile m shader) !! "fadeFar" = Some (mkUniform (Number f))))
  /\ (PrimFloat.eqb f f = false ->
      lookupDefine FADING_MATERIAL (updateDistanceFadeFeature m) = None
      /\ uniforms (onBeforeCompile m shader) !! "fadeFar" = Some (mkUniform (Number f))).
Proof.
  intros Hf Hdef Hu. rewrite lookupDefine_update, Hf, Hdef. split.
  - intros Hnum. rewrite (NumberOrder.gtZero_not_leZero f Hnum).
    destruct (leZero f) eqn:Hle; simpl.
    + unfold onBeforeCompile. rewrite Hf, Hle, Hu. split; discriminate.
    + rewrite (onBeforeCompile_uniforms m shader f Hf Hle), lookup_insert_eq.
      split; reflexivity.
  - intros Hnan. destruct (NumberOrder.nan_unordered f Hnan) as [Hgt Hle].
    rewrite Hgt, (onBeforeCompile_uniforms m shader f Hf Hle), lookup_insert_eq.
    split; reflexivity.
Qed.

Lemma define_and_patch_agree_witness :
  (lookupDefine FADING_MATERIAL
     (updateDistanceFadeFeature (Sample.settled None (Some 0.5%float) None)) = Some ""
   <-> uniforms (onBeforeCompile (Sample.settled None (Some 0.5%float) None) Sample.sampleShader)
       !! "fadeFar" = Some (mkUniform (Number 0.5%float)))
  /\ lookupDefine FADING_MATERIAL
       (updateDistanceFadeFeature (Sample.settled None (Some nan) None)) = None
  /\ uniforms (onBeforeCompile (Sample.settled None (Some nan) None) Sample.sampleShader)
     !! "fadeFar" = Some (mkUniform (Number nan)).
Proof.
  destruct (define_and_patch_agree (Sample.settled None (Some 0.5%float) None) Sample.sampleShader
              0.5%float eq_refl eq_refl eq_refl) as [Hnum _].
  destruct (define_and_patch_agree (Sample.settled None (Some nan) None) Sample.sampleShader
              nan eq_refl eq_refl eq_refl) as [_ Hnan].
  split; [exact (Hnum eq_refl) | exact (Hnan eq_refl)].
Defined.

(** ** Repeated shader patching *)

Module JsStringMore.
Import JsString.

Lemma length_append (a b : string) :
  String.length (a +:+ b) = String.length a + String.length b.
Proof.
  induction a as [|c a IH]; [reflexivity|].
  rewrite JsStringFacts.append_cons. simpl. rewrite IH. reflexivity.
Qed.

Lemma append_assoc (a b c : string) : (a +:+ b) +:+ c = a +:+ (b +:+ c).
Proof.
  induction a as [|x a IH]; [reflexivity|].
  rewrite !JsStringFacts.append_cons, IH. reflexivity.
Qed.

Lemma occurs_middle (pat a b : string) : occurs pat (a +:+ pat +:+ b).
Proof. exists a, b. reflexivity. Qed.

Lemma occurs_inside (pat a s b : string) : occurs pat s -> occurs pat (a +:+ s +:+ b).
Proof.
  intros (x & y & ->). exists (a +:+ x), (y +:+ b).
  rewrite !append_assoc. reflexivity.
Qed.

End JsStringMore.

Lemma insertShaderInclude_found (shaderContent shaderName insertedShaderName : string)
    (addTab : option bool) :
  JsString.noDollar shaderName = true ->
  JsString.noDollar insertedShaderName = true ->
  JsString.occurs (includeDirective shaderName) shaderContent ->
  exists before after,
    shaderContent = before +:+ includeDirective shaderName +:+ after
    /\ insertShaderInclude shaderContent shaderName insertedShaderName addTab
       = before +:+ patchText shaderName insertedShaderName addTab +:+ after.
Proof.
  intros Hs Hi Ho.
  destruct (JsStringFacts.occurs_splitFirst _ _ Ho) as (before & after & Hsplit).
  exists before, after. split; [apply (JsStringFacts.splitFirst_Some _ _ _ _ Hsplit)|].
  rewrite insertShaderInclude_unfold.
  apply JsStringFacts.replace_found; [apply patchText_noDollar; assumption | exact Hsplit].
Qed.

Lemma patchText_length (shaderName insertedShaderName : string) (addTab : option bool) :
  String.length (includeDirective shaderName)
  < String.length (patchText shaderName insertedShaderName addTab).
Proof.
  unfold patchText. rewrite !JsStringMore.length_append.
  change (String.length JsString.nl) with 1. lia.
Qed.

(** X3.  With include names free of [$] and the anchor directive present
    in the source: the patched source is longer by the length of the
    inserted text less the anchor's, it still contains the anchor
    directive and now contains the new include directive; so patching is
    not idempotent, a second call on the result inserts the text once
    more. *)
Theorem insertShaderInclude_patches_again (shaderContent shaderName insertedShaderName : string)
    (addTab : option bool) :
  JsString.noDollar shaderName = true ->
  JsString.noDollar insertedShaderName = true ->
  JsString.occurs (includeDirective shaderName) shaderContent ->
  let result := insertShaderInclude shaderContent shaderName insertedShaderName addTab in
  String.length result + String.length (includeDirective shaderName)
  = String.length shaderContent + String.length (patchText shaderName insertedShaderName addTab)
  /\ String.length shaderContent < String.length result
  /\ JsString.occurs (includeDirective shaderName) result
  /\ JsString.occurs (includeDirective insertedShaderName) result
  /\ String.length result
     < String.length (insertShaderInclude result shaderName insertedShaderName addTab)
  /\ insertShaderInclude result shaderName insertedShaderName addTab <> result.
Proof.
  intros Hs Hi Ho result.
  pose proof (patchText_length shaderName insertedShaderName addTab) as Hlen.
  assert (Hgrow : forall content,
             JsString.occurs (includeDirective shaderName) content ->
             String.length (insertShaderInclude content shaderName insertedShaderName addTab)
             + String.length (includeDirective shaderName)
             = String.length content
               + String.length (patchText shaderName insertedShaderName addTab)).
  { intros content Hc.
    destruct (insertShaderInclude_found content _ _ addTab Hs Hi Hc) as (b & a & -> & ->).
    rewrite !JsStringMore.length_append. lia. }
  assert (Hanchor : JsString.occurs (includeDirective shaderName) result).
  { unfold result.
    destruct (insertShaderInclude_found shaderContent _ _ addTab Hs Hi Ho) as (b & a & _ & ->).
    apply JsStringMore.occurs_inside. unfold patchText.
    exists JsString.nl. eexists. reflexivity. }
  pose proof (Hgrow shaderContent Ho) as H1. pose proof (Hgrow result Hanchor) as H2.
  fold result in H1.
  split; [exact H1|]. split; [lia|]. split; [exact Hanchor|]. split; [|split; [lia|]].
  - unfold result.
    destruct (insertShaderInclude_found shaderContent _ _ addTab Hs Hi Ho) as (b & a & _ & ->).
    apply JsStringMore.occurs_inside. unfold patchText.
    exists (JsString.nl +:+ includeDirective shaderName +:+ JsString.nl
            +:+ PATCH_START +:+ JsString.nl
            +:+ match addTab with Some true => JsString.tab | _ => "" end).
    exists (JsString.nl +:+ PATCH_END +:+ JsString.nl).
    rewrite !JsStringMore.append_assoc. reflexivity.
  - intros Heq. rewrite Heq in H2. lia.
Qed.

Lemma insertShaderInclude_patches_again_witness :
  let once := insertShaderInclude Sample.vertexSource "fog_vertex" "fading_vertex" (Some true) in
  let twice := insertShaderInclude once "fog_vertex" "fading_vertex" (Some true) in
  String.length Sample.vertexSource < String.length once
  /\ String.length once < String.length twice
  /\ twice <> once.
Proof.
  cbv zeta.
  assert (Hocc : JsString.occurs (includeDirective "fog_vertex") Sample.vertexSource).
  { exists ("#include <fog_pars_vertex>" +:+ JsString.nl +:+ "void main() {" +:+ JsString.nl +:+ JsString.tab),
           (JsString.nl +:+ "}").
    reflexivity. }
  destruct (insertShaderInclude_patches_again Sample.vertexSource "fog_vertex" "fading_vertex"
              (Some true) eq_refl eq_refl Hocc) as (_ & H1 & _ & _ & H2 & H3).
  split; [exact H1|]. split; [exact H2 | exact H3].
Defined.

(** ** Pushing the distances into the shader's uniforms *)

Lemma setters_keep_uniformsNeedUpdate (x y : float) (m : Material) :
  uniformsNeedUpdate (base (set_fadeFar y (set_fadeNear x m))) = uniformsNeedUpdate (base m).
Proof.
  assert (Hn : forall v m', uniformsNeedUpdate (base (setFadeNear v m')) = uniformsNeedUpdate (base m')).
  { intros v m'. rewrite setFadeNear_unfold.
    destruct (truthy _ || strictNe v _); [rewrite updateDistanceFadeFeature_unfold|]; reflexivity. }
  assert (Hf : forall v m', uniformsNeedUpdate (base (setFadeFar v m')) = uniformsNeedUpdate (base m')).
  { intros v m'. rewrite setFadeFar_unfold.
    destruct (truthy _ || strictNe v _); [rewrite updateDistanceFadeFeature_unfold|]; reflexivity. }
  unfold set_fadeFar, set_fadeNear.
  destruct (accessors m) eqn:Hacc; rewrite ?Hacc; [reflexivity|].
  destruct (setFadeNear_frame m x) as (_ & -> & _). rewrite Hacc, Hf, Hn. reflexivity.
Qed.

Lemma pushUniforms_ok (renderer : WebGLRenderer) (material : Material) (s : Shader) :
  shader (properties renderer) = Some s ->
  hasFadingUniforms s ->
  pushUniforms renderer material
  = ((mkRenderer
        (mkMaterialProperties
           (Some (setUniforms
                    (<["fadeFar" := mkUniform (anyOfNumber (get_fadeFar material))]>
                       (<["fadeNear" := mkUniform (anyOfNumber (get_fadeNear material))]>
                          (uniforms s))) s))),
      setUniformsNeedUpdate (Some true) material), Normal).
Proof.
  intros Hs [[un Hn] [uf Hf]]. unfold pushUniforms, assignUniformValue. rewrite Hs, Hn. simpl.
  rewrite lookup_insert_ne by discriminate. rewrite Hf. reflexivity.
Qed.

Lemma pushUniforms_throws (renderer : WebGLRenderer) (material : Material) (s : Shader) :
  shader (properties renderer) = Some s ->
  uniforms s !! "fadeNear" = None \/ uniforms s !! "fadeFar" = None ->
  completionOf (pushUniforms renderer material) = typeError
  /\ materialOf (pushUniforms renderer material) = material.
Proof.
  intros Hs Hmiss. unfold pushUniforms, assignUniformValue. rewrite Hs.
  destruct (uniforms s !! "fadeNear") as [un|] eqn:Hn; [|split; reflexivity].
  destruct Hmiss as [Hmiss|Hmiss]; [discriminate|]. simpl.
  rewrite lookup_insert_ne by discriminate. rewrite Hmiss. split; reflexivity.
Qed.

(** X4.  With [updateUniforms] on, a shader in the renderer's properties
    that carries both fading uniforms, and accessors registered: the
    before-render hook writes the two world-space distances into the
    [fadeNear] and [fadeFar] uniforms, keeps every other uniform and both
    shader sources, sets [uniformsNeedUpdate], and only then hands the
    renderer and the material to the caller's callback; without a callback
    it ends normally with that state. *)
Theorem beforeRender_pushes_uniforms (n f : option float) (force : bool) (cb : option Callback)
    (renderer : WebGLRenderer) (camera : Camera) (material : Material) (s : Shader) :
  accessors material = Registered ->
  shader (properties renderer) = Some s ->
  hasFadingUniforms s ->
  exists (s' : Shader) (m' : Material),
    beforeRenderHook n f force true cb renderer camera material
    = match cb with
      | Some callback => callback (mkRenderer (mkMaterialProperties (Some s'))) m'
      | None => ((mkRenderer (mkMaterialProperties (Some s')), m'), Normal)
      end
    /\ uniforms s' !! "fadeNear"
       = Some (mkUniform (Number (worldDistance n DEFAULT_FADE_NEAR camera)))
    /\ uniforms s' !! "fadeFar"
       = Some (mkUniform (Number (worldDistance f DEFAULT_FADE_FAR camera)))
    /\ (forall name, name <> "fadeNear" -> name <> "fadeFar" ->
          uniforms s' !! name = uniforms s !! name)
    /\ vertexShader s' = vertexShader s
    /\ fragmentShader s' = fragmentShader s
    /\ uniformsNeedUpdate (base m') = Some true
    /\ get_fadeNear m' = Some (worldDistance n DEFAULT_FADE_NEAR camera)
    /\ get_fadeFar m' = Some (worldDistance f DEFAULT_FADE_FAR camera).
Proof.
  intros Hacc Hs Hu. unfold beforeRenderHook.
  fold (worldDistance n DEFAULT_FADE_NEAR camera). fold (worldDistance f DEFAULT_FADE_FAR camera).
  set (m1 := if force then setTransparent (Some true) material else material).
  assert (Hacc1 : accessors m1 = Registered) by (unfold m1; destruct force; exact Hacc).
  set (m3 := set_fadeFar _ (set_fadeNear _ m1)).
  assert (Hn3 : get_fadeNear m3 = Some (worldDistance n DEFAULT_FADE_NEAR camera))
    by apply (set_fade_registered _ _ m1 Hacc1).
  assert (Hf3 : get_fadeFar m3 = Some (worldDistance f DEFAULT_FADE_FAR camera))
    by apply (set_fade_registered _ _ m1 Hacc1).
  rewrite (pushUniforms_ok renderer m3 s Hs Hu), Hn3, Hf3. simpl.
  eexists. exists (setUniformsNeedUpdate (Some true) m3).
  split; [reflexivity|]. simpl.
  split; [rewrite lookup_insert_ne by discriminate; apply lookup_insert_eq|].
  split; [apply lookup_insert_eq|].
  split; [intros name H1 H2; rewrite !lookup_insert_ne by congruence; reflexivity|].
  repeat split; assumption.
Qed.

Lemma beforeRender_pushes_uniforms_witness :
  let s := mkShader {["fadeNear" := mkUniform Undefined; "fadeFar" := mkUniform (Number 0.5%float)]}
             Sample.vertexSource Sample.fragmentSource in
  let renderer := mkRenderer (mkMaterialProperties (Some s)) in
  let result := beforeRenderHook (Some 0.1%float) (Some 0.5%float) true true None renderer
                  Sample.camera1000 (Sample.settled None (Some 0.5%float) None) in
  completionOf result = Normal
  /\ (exists s', shader (properties (rendererOf result)) = Some s'
                 /\ uniforms s' !! "fadeNear" = Some (mkUniform (Number 100%float))
                 /\ uniforms s' !! "fadeFar" = Some (mkUniform (Number 500%float)))
  /\ uniformsNeedUpdate (base (materialOf result)) = Some true.
Proof.
  cbv zeta.
  assert (Hu : hasFadingUniforms
                 (mkShader {["fadeNear" := mkUniform Undefined;
                             "fadeFar" := mkUniform (Number 0.5%float)]}
                    Sample.vertexSource Sample.fragmentSource)).
  { split; eexists; reflexivity. }
  destruct (beforeRender_pushes_uniforms (Some 0.1%float) (Some 0.5%float) true None
              (mkRenderer (mkMaterialProperties
                 (Some (mkShader {["fadeNear" := mkUniform Undefined;
                                   "fadeFar" := mkUniform (Number 0.5%float)]}
                          Sample.vertexSource Sample.fragmentSource))))
              Sample.camera1000 (Sample.settled None (Some 0.5%float) None) _ eq_refl eq_refl Hu)
    as (s' & m' & Hres & Hn & Hf & _ & _ & _ & Hflag & _).
  rewrite Hres. split; [reflexivity|]. split; [|exact Hflag].
  exists s'. split; [reflexivity|]. split; [exact Hn | exact Hf].
Defined.

(** X5.  With [updateUniforms] on and a shader in the renderer's
    properties that lacks the [fadeNear] or the [fadeFar] uniform, the
    before-render hook ends in a [TypeError]: the caller's callback is not
    run (the outcome is the same with any callback or none),
    [uniformsNeedUpdate] is left as it was, and the two distances, assigned
    before the failing statement, stay stored on the material. *)
Theorem beforeRender_missing_uniform (n f : option float) (force : bool) (cb : option Callback)
    (renderer : WebGLRenderer) (camera : Camera) (material : Material) (s : Shader) :
  accessors material = Registered ->
  shader (properties renderer) = Some s ->
  uniforms s !! "fadeNear" = None \/ uniforms s !! "fadeFar" = None ->
  let result := beforeRenderHook n f force true cb renderer camera material in
  completionOf result = typeError
  /\ result = beforeRenderHook n f force true None renderer camera material
  /\ uniformsNeedUpdate (base (materialOf result)) = uniformsNeedUpdate (base material)
  /\ get_fadeNear (materialOf result) = Some (worldDistance n DEFAULT_FADE_NEAR camera)
  /\ get_fadeFar (materialOf result) = Some (worldDistance f DEFAULT_FADE_FAR camera).
Proof.
  intros Hacc Hs Hmiss. cbv zeta. unfold beforeRenderHook.
  fold (worldDistance n DEFAULT_FADE_NEAR camera). fold (worldDistance f DEFAULT_FADE_FAR camera).
  set (m1 := if force then setTransparent (Some true) material else material).
  assert (Hacc1 : accessors m1 = Registered) by (unfold m1; destruct force; exact Hacc).
  set (m3 := set_fadeFar _ (set_fadeNear _ m1)).
  assert (Hn3 : get_fadeNear m3 = Some (worldDistance n DEFAULT_FADE_NEAR camera))
    by apply (set_fade_registered _ _ m1 Hacc1).
  assert (Hf3 : get_fadeFar m3 = Some (worldDistance f DEFAULT_FADE_FAR camera))
    by apply (set_fade_registered _ _ m1 Hacc1).
  destruct (pushUniforms_throws renderer m3 s Hs Hmiss) as [Hc Hm].
  rewrite Hc. simpl. rewrite Hc, Hm.
  split; [reflexivity|]. split; [reflexivity|]. split; [|split; assumption].
  unfold m3. rewrite setters_keep_uniformsNeedUpdate. unfold m1. destruct force; reflexivity.
Qed.

Lemma beforeRender_missing_uniform_witness :
  let renderer := mkRenderer (mkMaterialProperties (Some Sample.sampleShader)) in
  let result := beforeRenderHook (Some 0.1%float) (Some 0.5%float) false true
                  (Some Sample.markDirty) renderer Sample.camera1000
                  (Sample.settled None None None) in
  completionOf result = typeError
  /\ uniformsNeedUpdate (base (materialOf result)) = None
  /\ get_fadeFar (materialOf result) = Some 500%float.
Proof.
  cbv zeta.
  destruct (beforeRender_missing_uniform (Some 0.1%float) (Some 0.5%float) false
              (Some Sample.markDirty)
              (mkRenderer (mkMaterialProperties (Some Sample.sampleShader)))
              Sample.camera1000 (Sample.settled None None None) Sample.sampleShader
              eq_refl eq_refl (or_introl eq_refl)) as (Hc & _ & Hflag & _ & Hfar).
  split; [exact Hc|]. split; [exact Hflag | exact Hfar].
Defined.

(** ** The before-render hook against what the compile-time hook left *)

Lemma onBeforeCompile_hasFadingUniforms (m : Material) (shader : Shader) (f : float) :
  get_fadeFar m = Some f -> leZero f = false -> hasFadingUniforms (onBeforeCompile m shader).
Proof.
  intros Hf Hle. unfold hasFadingUniforms. rewrite (onBeforeCompile_uniforms m shader f Hf Hle).
  split.
  - rewrite lookup_insert_ne by discriminate. rewrite lookup_insert_eq. eexists. reflexivity.
  - rewrite lookup_insert_eq. eexists. reflexivity.
Qed.

Lemma onBeforeCompile_off (m : Material) (shader : Shader) :
  get_fadeFar m = None \/ (exists f, get_fadeFar m = Some f /\ leZero f = true) ->
  onBeforeCompile m shader = shader.
Proof. intros [H|(f & H & Hle)]; unfold onBeforeCompile; rewrite H, ?Hle; reflexivity. Qed.

(** X6.  What the before-render hook (with [updateUniforms] on and no
    callback) does depends on the shader the renderer holds for the
    material.  None yet: the hook ends normally and leaves the renderer
    untouched.  The shader the compile-time hook produced while fading was
    on: the hook ends normally and the shader's [fadeFar] uniform holds
    the new world-space distance.  A shader without fading uniforms that
    went through the compile-time hook while fading was off: the hook ends
    in a [TypeError]. *)
Theorem beforeRender_by_shader_state (n f : option float) (force : bool)
    (camera : Camera) (material compiledFor : Material) (s0 : Shader) :
  accessors material = Registered ->
  (let result := beforeRenderHook n f force true None
                   (mkRenderer (mkMaterialProperties None)) camera material in
   completionOf result = Normal
   /\ rendererOf result = mkRenderer (mkMaterialProperties None))
  /\ (forall f0, get_fadeFar compiledFor = Some f0 -> leZero f0 = false ->
      let result := beforeRenderHook n f force true None
                      (mkRenderer (mkMaterialProperties (Some (onBeforeCompile compiledFor s0))))
                      camera material in
      completionOf result = Normal
      /\ exists s', shader (properties (rendererOf result)) = Some s'
                    /\ uniforms s' !! "fadeFar"
                       = Some (mkUniform (Number (worldDistance f DEFAULT_FADE_FAR camera)))
                    /\ vertexShader s' = vertexShader (onBeforeCompile compiledFor s0)
                    /\ fragmentShader s' = fragmentShader (onBeforeCompile compiledFor s0))
  /\ ((get_fadeFar compiledFor = None
       \/ exists f0, get_fadeFar compiledFor = Some f0 /\ leZero f0 = true) ->
      uniforms s0 !! "fadeNear" = None \/ uniforms s0 !! "fadeFar" = None ->
      let result := beforeRenderHook n f force true None
                      (mkRenderer (mkMaterialProperties (Some (onBeforeCompile compiledFor s0))))
                      camera material in
      completionOf result = typeError).
Proof.
  intros Hacc.
  set (m1 := if force then setTransparent (Some true) material else material).
  assert (Hacc1 : accessors m1 = Registered) by (unfold m1; destruct force; exact Hacc).
  split; [|split].
  - cbv zeta. unfold beforeRenderHook. split; reflexivity.
  - intros f0 Hf0 Hle0. cbv zeta. unfold beforeRenderHook.
    fold (worldDistance n DEFAULT_FADE_NEAR camera). fold (worldDistance f DEFAULT_FADE_FAR camera).
    fold m1. set (m3 := set_fadeFar _ (set_fadeNear _ m1)).
    assert (Hf3 : get_fadeFar m3 = Some (worldDistance f DEFAULT_FADE_FAR camera))
      by apply (set_fade_registered _ _ m1 Hacc1).
    rewrite (pushUniforms_ok
               (mkRenderer (mkMaterialProperties (Some (onBeforeCompile compiledFor s0))))
               m3 (onBeforeCompile compiledFor s0) eq_refl
               (onBeforeCompile_hasFadingUniforms compiledFor s0 f0 Hf0 Hle0)).
    simpl. split; [reflexivity|]. eexists. split; [reflexivity|]. simpl.
    rewrite lookup_insert_eq, Hf3. repeat split; reflexivity.
  - intros Hoff Hmiss. cbv zeta. rewrite (onBeforeCompile_off compiledFor s0 Hoff).
    unfold beforeRenderHook.
    match goal with
    | |- context [pushUniforms ?r ?m] =>
        destruct (pushUniforms_throws r m s0 (eq_refl (Some s0)) Hmiss) as [Hc _]
    end.
    rewrite Hc. simpl. exact Hc.
Qed.

Lemma beforeRender_by_shader_state_witness :
  let material := Sample.settled None (Some 0.5%float) None in
  let off := Sample.settled None None None in
  accessors material = Registered
  /\ completionOf
       (beforeRenderHook (Some 0.1%float) (Some 0.5%float) true true None
          (mkRenderer (mkMaterialProperties (Some (onBeforeCompile material Sample.sampleShader))))
          Sample.camera1000 material) = Normal
  /\ completionOf
       (beforeRenderHook (Some 0.1%float) (Some 0.5%float) true true None
          (mkRenderer (mkMaterialProperties (Some (onBeforeCompile off Sample.sampleShader))))
          Sample.camera1000 off) = typeError.
Proof.
  cbv zeta. split; [reflexivity|].
  destruct (beforeRender_by_shader_state (Some 0.1%float) (Some 0.5%float) true Sample.camera1000
              (Sample.settled None (Some 0.5%float) None) (Sample.settled None (Some 0.5%float) None)
              Sample.sampleShader eq_refl) as (_ & Hon & _).
  destruct (beforeRender_by_shader_state (Some 0.1%float) (Some 0.5%float) true Sample.camera1000
              (Sample.settled None None None) (Sample.settled None None None)
              Sample.sampleShader eq_refl) as (_ & _ & Hoff).
  split.
  - exact (proj1 (Hon 0.5%float eq_refl eq_refl)).
  - exact (Hoff (or_introl eq_refl) (or_introl eq_refl)).
Defined.

(** ** The define follows [fadeFar] *)

Lemma lookupDefine_update_other (name : string) (m : Material) :
  name <> FADING_MATERIAL ->
  lookupDefine name (updateDistanceFadeFeature m) = lookupDefine name m.
Proof.
  intros Hne. rewrite updateDistanceFadeFeature_unfold. unfold lookupDefine. simpl.
  assert (Hd : default ∅ (defines (base m)) !! name
               = match defines (base m) with Some d => d !! name | None => None end).
  { destruct (defines (base m)); [reflexivity | apply lookup_empty]. }
  destruct (get_fadeFar m) as [f|]; [|exact Hd].
  destruct (gtZero f); [|exact Hd].
  rewrite lookup_insert_ne by congruence. exact Hd.
Qed.

Lemma follows_update (m : Material) :
  accessors m = Registered -> defineFollowsFadeFar (updateDistanceFadeFeature m).
Proof.
  intros Hacc. destruct (updateDistanceFadeFeature_frame m) as (_ & Hacc' & _ & Hfar & _).
  split; [rewrite Hacc'; exact Hacc|].
  intros f Hf Hgt. rewrite Hfar in Hf. rewrite lookupDefine_update.
  unfold get_fadeFar, getFadeFar. rewrite Hacc, Hf, Hgt. reflexivity.
Qed.

Lemma follows_setFadeNear (v : float) (m : Material) :
  defineFollowsFadeFar m -> defineFollowsFadeFar (setFadeNear v m).
Proof.
  intros [Hacc Hinv]. rewrite setFadeNear_unfold.
  destruct (truthy (needsUpdate (base m)) || strictNe v (m_fadeNear m)).
  - apply follows_update. exact Hacc.
  - split; [exact Hacc | exact Hinv].
Qed.

Lemma follows_setFadeFar (v : float) (m : Material) :
  defineFollowsFadeFar m -> defineFollowsFadeFar (setFadeFar v m).
Proof.
  intros [Hacc Hinv]. rewrite setFadeFar_unfold.
  destruct (truthy (needsUpdate (base m)) || strictNe v (m_fadeFar m)) eqn:Hflag.
  - apply follows_update. exact Hacc.
  - apply orb_false_iff in Hflag as [_ Hne]. split; [exact Hacc|].
    intros f Hf Hgt. simpl in Hf. injection Hf as <-.
    unfold strictNe in Hne. destruct (m_fadeFar m) as [s|] eqn:Hs; [|discriminate].
    apply negb_false_iff in Hne.
    rewrite (NumberOrder.eqb_gtZero v s Hne) in Hgt.
    exact (Hinv s eq_refl Hgt).
Qed.

Lemma follows_assignments (x y : float) (m : Material) :
  defineFollowsFadeFar m -> defineFollowsFadeFar (set_fadeFar y (set_fadeNear x m)).
Proof.
  intros Hinv. pose proof (follows_setFadeNear x m Hinv) as H1.
  unfold set_fadeNear. rewrite (proj1 Hinv).
  unfold set_fadeFar. rewrite (proj1 H1). apply follows_setFadeFar, H1.
Qed.

Lemma follows_same_state (m m' : Material) :
  accessors m' = accessors m -> m_fadeFar m' = m_fadeFar m ->
  defines (base m') = defines (base m) ->
  defineFollowsFadeFar m -> defineFollowsFadeFar m'.
Proof.
  intros Ha Hf Hd [Hacc Hinv]. split; [rewrite Ha; exact Hacc|].
  intros f Hf' Hgt. unfold lookupDefine. rewrite Hd. rewrite Hf in Hf'. exact (Hinv f Hf' Hgt).
Qed.

(** X7.  Assignments and hooks keep the define in step with [fadeFar]: on
    a material with registered accessors on which a stored [fadeFar > 0]
    comes with the [FADING_MATERIAL] define, the same holds after
    assigning [fadeNear] or [fadeFar] (any number), after the update
    procedure, after the renderer or anyone else assigns [needsUpdate],
    after the before-render hook (with no callback, or with one that keeps
    the property) and after the after-render hook. *)
Theorem define_follows_fadeFar_kept (m : Material) :
  defineFollowsFadeFar m ->
  (forall v, defineFollowsFadeFar (set_fadeNear v m))
  /\ (forall v, defineFollowsFadeFar (set_fadeFar v m))
  /\ defineFollowsFadeFar (updateDistanceFadeFeature m)
  /\ (forall b, defineFollowsFadeFar (setNeedsUpdate b m))
  /\ (forall n f force updateUniforms cb renderer camera,
        (forall callback, cb = Some callback ->
           forall r m', defineFollowsFadeFar m' -> defineFollowsFadeFar (materialOf (callback r m'))) ->
        defineFollowsFadeFar
          (materialOf (beforeRenderHook n f force updateUniforms cb renderer camera m)))
  /\ (forall renderer camera,
        defineFollowsFadeFar (materialOf (afterRenderHook renderer camera m))).
Proof.
  intros Hinv. pose proof (proj1 Hinv) as Hacc.
  split; [|split; [|split; [|split; [|split]]]].
  - intros v. unfold set_fadeNear. rewrite Hacc. apply follows_setFadeNear, Hinv.
  - intros v. unfold set_fadeFar. rewrite Hacc. apply follows_setFadeFar, Hinv.
  - apply follows_update, Hacc.
  - intros b. apply (follows_same_state m); [reflexivity..|exact Hinv].
  - intros n f force updateUniforms cb renderer camera Hcb. unfold beforeRenderHook.
    set (m1 := if force then setTransparent (Some true) m else m).
    assert (H1 : defineFollowsFadeFar m1).
    { unfold m1. destruct force; [|exact Hinv].
      apply (follows_same_state m); [reflexivity..|exact Hinv]. }
    set (m3 := set_fadeFar _ (set_fadeNear _ m1)).
    assert (H3 : defineFollowsFadeFar m3) by apply (follows_assignments _ _ m1 H1).
    set (r4 := if updateUniforms then pushUniforms renderer m3 else (renderer, m3, Normal)).
    assert (H4 : defineFollowsFadeFar (materialOf r4)).
    { unfold r4. destruct updateUniforms; [|exact H3].
      destruct (pushUniforms_material renderer m3) as [->| ->]; [exact H3|].
      apply (follows_same_state m3); [reflexivity..|exact H3]. }
    destruct (completionOf r4); [|exact H4].
    destruct cb as [callback|]; [|exact H4].
    apply (Hcb callback eq_refl), H4.
  - intros renderer camera. apply (follows_same_state m); [reflexivity..|exact Hinv].
Qed.

Lemma define_follows_fadeFar_kept_witness :
  let m := Sample.settled None (Some (-1)%float) None in
  defineFollowsFadeFar m
  /\ defineFollowsFadeFar (set_fadeFar 0.5%float m)
  /\ lookupDefine FADING_MATERIAL (set_fadeFar 0.5%float m) = Some "".
Proof.
  cbv zeta.
  assert (Hinv : defineFollowsFadeFar (Sample.settled None (Some (-1)%float) None)).
  { split; [reflexivity|]. intros f Hf Hgt. injection Hf as <-. discriminate Hgt. }
  destruct (define_follows_fadeFar_kept _ Hinv) as (_ & Hfar & _).
  split; [exact Hinv|]. split; [exact (Hfar 0.5%float)|].
  exact (proj2 (Hfar 0.5%float) 0.5%float eq_refl eq_refl).
Defined.

(** X8.  The update procedure and the two setters never remove a define
    and never touch a define other than [FADING_MATERIAL]: every other
    entry of the defines map reads the same afterwards, and
    [FADING_MATERIAL], once present, stays present. *)
Theorem other_defines_kept (m : Material) (v : float) (name : string) :
  (name <> FADING_MATERIAL ->
   lookupDefine name (updateDistanceFadeFeature m) = lookupDefine name m
   /\ lookupDefine name (setFadeNear v m) = lookupDefine name m
   /\ lookupDefine name (setFadeFar v m) = lookupDefine name m)
  /\ (is_Some (lookupDefine FADING_MATERIAL m) ->
      is_Some (lookupDefine FADING_MATERIAL (updateDistanceFadeFeature m))
      /\ is_Some (lookupDefine FADING_MATERIAL (setFadeNear v m))
      /\ is_Some (lookupDefine FADING_MATERIAL (setFadeFar v m))).
Proof.
  assert (Hup : forall m', is_Some (lookupDefine FADING_MATERIAL m') ->
                           is_Some (lookupDefine FADING_MATERIAL (updateDistanceFadeFeature m'))).
  { intros m' Hs. rewrite lookupDefine_update.
    destruct (get_fadeFar m') as [f|]; [|exact Hs].
    destruct (gtZero f); [eexists; reflexivity | exact Hs]. }
  split.
  - intros Hne. split; [apply lookupDefine_update_other, Hne|]. split.
    + rewrite setFadeNear_unfold.
      destruct (truthy _ || strictNe v _); [rewrite lookupDefine_update_other by exact Hne|];
        reflexivity.
    + rewrite setFadeFar_unfold.
      destruct (truthy _ || strictNe v _); [rewrite lookupDefine_update_other by exact Hne|];
        reflexivity.
  - intros Hs. split; [apply Hup, Hs|]. split.
    + rewrite setFadeNear_unfold.
      destruct (truthy _ || strictNe v _); [apply Hup|]; exact Hs.
    + rewrite setFadeFar_unfold.
      destruct (truthy _ || strictNe v _); [apply Hup|]; exact Hs.
Qed.

Lemma other_defines_kept_witness :
  let m := Sample.settled None (Some 0.5%float)
             (Some {["STANDARD" := ""; FADING_MATERIAL := ""]}) in
  lookupDefine "STANDARD" (setFadeFar (-1)%float m) = Some ""
  /\ is_Some (lookupDefine FADING_MATERIAL (setFadeFar (-1)%float m)).
Proof.
  cbv zeta.
  destruct (other_defines_kept
              (Sample.settled None (Some 0.5%float)
                 (Some {["STANDARD" := ""; FADING_MATERIAL := ""]}))
              (-1)%float "STANDARD") as [Hother _].
  destruct (other_defines_kept
              (Sample.settled None (Some 0.5%float)
                 (Some {["STANDARD" := ""; FADING_MATERIAL := ""]}))
              (-1)%float FADING_MATERIAL) as [_ Hfading].
  split.
  - destruct (Hother ltac:(discriminate)) as (_ & _ & ->). reflexivity.
  - apply Hfading. eexists. reflexivity.
Defined.

(** ** New instances and the registry *)

Section InstanceFacts.

Variable ThreeParameters : Type.
Variable superNew : MaterialKind -> option (MaterialParameters ThreeParameters) -> ThreeMaterial.
Variable superCopy : ThreeMaterial -> ThreeMaterial -> ThreeMaterial.
Variable fadingShaderChunk : gmap string string.

Lemma follows_fresh (k : MaterialKind) (t : ThreeMaterial) :
  defineFollowsFadeFar (addFadingProperties (mkMaterial k t Placeholder None None)).
Proof. split; [reflexivity|]. intros f Hf. discriminate Hf. Qed.

Lemma follows_applyFadingParameters (params : option FadingFeatureParameters) (m : Material) :
  defineFollowsFadeFar m -> defineFollowsFadeFar (applyFadingParameters params m).
Proof.
  intros Hinv. unfold applyFadingParameters.
  apply (follows_same_state
           (match params with
            | Some p =>
                match fadeFar p with
                | Some v => setFadeFar v match fadeNear p with
                                         | Some v0 => setFadeNear v0 m
                                         | None => m
                                         end
                | None => match fadeNear p with
                          | Some v0 => setFadeNear v0 m
                          | None => m
                          end
                end
            | None => m
            end)); [reflexivity..|].
  destruct params as [[[a|] [b|]]|]; simpl;
    repeat first [apply follows_setFadeFar | apply follows_setFadeNear]; exact Hinv.
Qed.

(** X9.  A new instance of either class, whatever THREE's base constructor
    does: its accessors are registered, its [onBeforeCompile] is the fading
    hook (so calling it is calling [FadingFeature.onBeforeCompile] on the
    material as it then is), each distance supplied in the parameters is
    read back as given, a supplied distance leaves [needsUpdate] true, and
    a supplied [fadeFar > 0] leaves the [FADING_MATERIAL] define in
    place. *)
Theorem construct_applies_parameters (k : MaterialKind) (p : ThreeParameters)
    (near far_ : option float) (ShaderChunk : gmap string string) :
  let m := snd (construct superNew fadingShaderChunk k
                  (Some (mkMaterialParameters p (mkFadingFeatureParameters near far_)))
                  ShaderChunk) in
  kind m = k
  /\ accessors m = Registered
  /\ (forall s, callOnBeforeCompile m s = onBeforeCompile m s)
  /\ defineFollowsFadeFar m
  /\ (forall a, near = Some a -> get_fadeNear m = Some a /\ needsUpdate (base m) = Some true)
  /\ (forall b, far_ = Some b ->
        get_fadeFar m = Some b
        /\ needsUpdate (base m) = Some true
        /\ (gtZero b = true -> lookupDefine FADING_MATERIAL m = Some "")).
Proof.
  intros m.
  assert (Hinv : defineFollowsFadeFar m).
  { unfold m, construct. simpl. apply follows_applyFadingParameters, follows_fresh. }
  assert (Hhook : onBeforeCompile_hook (base m) = FadingHook) by reflexivity.
  assert (Hkind : kind m = k).
  { unfold m, construct, applyFadingParameters, addFadingProperties. simpl.
    destruct near as [a|], far_ as [b|]; simpl;
      repeat match goal with
             | |- context [setFadeFar ?v ?x] => destruct (setFadeFar_frame x v) as (-> & _)
             | |- context [setFadeNear ?v ?x] => destruct (setFadeNear_frame x v) as (-> & _)
             end; reflexivity. }
  assert (Hflag : forall v x, needsUpdate (base x) = Some true ->
                              needsUpdate (base (setFadeFar v x)) = Some true).
  { intros v x Hx. rewrite setFadeFar_unfold, Hx. simpl. apply updateDistanceFadeFeature_frame. }
  assert (Hfresh : forall v x, m_fadeNear x = None ->
                               needsUpdate (base (setFadeNear v x)) = Some true).
  { intros v x Hx. rewrite setFadeNear_unfold, Hx. simpl. rewrite orb_true_r.
    apply updateDistanceFadeFeature_frame. }
  assert (Hfresh' : forall v x, m_fadeFar x = None ->
                                needsUpdate (base (setFadeFar v x)) = Some true).
  { intros v x Hx. rewrite setFadeFar_unfold, Hx. simpl. rewrite orb_true_r.
    apply updateDistanceFadeFeature_frame. }
  split; [exact Hkind|]. split; [exact (proj1 Hinv)|]. split.
  { intros s. unfold callOnBeforeCompile. rewrite Hhook. reflexivity. }
  split; [exact Hinv|]. split.
  - intros a ->. unfold get_fadeNear, getFadeNear. rewrite (proj1 Hinv).
    unfold m, construct, applyFadingParameters. simpl. destruct far_ as [b|]; simpl.
    + match goal with
      | |- context [setFadeFar b ?x] => destruct (setFadeFar_frame x b) as (_ & _ & -> & _)
      end.
      split; [apply setFadeNear_frame|]. apply Hflag, Hfresh. reflexivity.
    + split; [apply setFadeNear_frame|]. apply Hfresh. reflexivity.
  - intros b ->. unfold get_fadeFar, getFadeFar. rewrite (proj1 Hinv).
    assert (Hb : m_fadeFar m = Some b).
    { unfold m, construct, applyFadingParameters. simpl. apply setFadeFar_frame. }
    split; [exact Hb|]. split; [|intros Hgt; exact (proj2 Hinv b Hb Hgt)].
    unfold m, construct, applyFadingParameters. simpl. destruct near as [a|].
    + apply Hflag, Hfresh. reflexivity.
    + apply Hfresh'. reflexivity.
Qed.

Lemma clone_fresh (this : Material) (ShaderChunk : gmap string string) :
  clone superNew superCopy fadingShaderChunk this ShaderChunk
  = (patchGlobalShaderChunks fadingShaderChunk ShaderChunk,
     copy superCopy this
       (setOnBeforeCompile FadingHook
          (addFadingProperties (mkMaterial (kind this) (superNew (kind this) None) Placeholder None None)))).
Proof. reflexivity. Qed.

(** X10.  Cloning any material, whatever THREE's base constructor and base
    [copy] do: the clone is a registered instance of the same class and
    reads, for each distance, the source's value, or the default [-1.0]
    where the source reads undefined; the define follows its [fadeFar];
    the registry is patched as by one construction. *)
Theorem clone_reads_back (this : Material) (ShaderChunk : gmap string string) :
  let result := clone superNew superCopy fadingShaderChunk this ShaderChunk in
  fst result = patchGlobalShaderChunks fadingShaderChunk ShaderChunk
  /\ kind (snd result) = kind this
  /\ get_fadeNear (snd result) = Some (default DEFAULT_FADE_NEAR (get_fadeNear this))
  /\ get_fadeFar (snd result) = Some (default DEFAULT_FADE_FAR (get_fadeFar this))
  /\ defineFollowsFadeFar (snd result).
Proof.
  cbv zeta. rewrite clone_fresh. simpl.
  set (fresh := setOnBeforeCompile FadingHook _).
  unfold copy, copyFadingParameters.
  set (this1 := setBase _ fresh).
  assert (H1 : defineFollowsFadeFar this1).
  { split; [reflexivity|]. intros f Hf. discriminate Hf. }
  set (a := match get_fadeNear this with Some v => v | None => DEFAULT_FADE_NEAR end).
  set (b := match get_fadeFar this with Some v => v | None => DEFAULT_FADE_FAR end).
  pose proof (follows_setFadeFar b _ (follows_setFadeNear a _ H1)) as Hinv.
  destruct (setFadeNear_frame this1 a) as (Hk1 & Hacc1 & Hnear1 & _).
  destruct (setFadeFar_frame (setFadeNear a this1) b) as (Hk2 & Hacc2 & Hnear2 & Hfar2 & _).
  split; [reflexivity|]. split; [rewrite Hk2, Hk1; reflexivity|].
  unfold get_fadeNear at 1, get_fadeFar at 1, getFadeNear, getFadeFar.
  rewrite (proj1 Hinv), Hnear2, Hnear1, Hfar2.
  split; [unfold a; destruct (get_fadeNear this); reflexivity|].
  split; [unfold b; destruct (get_fadeFar this); reflexivity | exact Hinv].
Qed.

(** X11.  Patching the registry, whatever the table of fading chunks
    holds: patching twice is patching once; a chunk whose name is not in
    the table is never changed; on a registry without
    [fading_pars_vertex] every chunk of the table is installed under its
    name, replacing a chunk of that name; a registry that already has
    [fading_pars_vertex] is left as it is, even when other fading chunks
    are missing from it. *)
Theorem patchGlobalShaderChunks_effect (ShaderChunk : gmap string string) :
  patchGlobalShaderChunks fadingShaderChunk
    (patchGlobalShaderChunks fadingShaderChunk ShaderChunk)
  = patchGlobalShaderChunks fadingShaderChunk ShaderChunk
  /\ (forall name, fadingShaderChunk !! name = None ->
        patchGlobalShaderChunks fadingShaderChunk ShaderChunk !! name = ShaderChunk !! name)
  /\ (ShaderChunk !! "fading_pars_vertex" = None ->
      forall name text, fadingShaderChunk !! name = Some text ->
        patchGlobalShaderChunks fadingShaderChunk ShaderChunk !! name = Some text)
  /\ (is_Some (ShaderChunk !! "fading_pars_vertex") ->
      patchGlobalShaderChunks fadingShaderChunk ShaderChunk = ShaderChunk).
Proof.
  unfold patchGlobalShaderChunks, unpatched. split; [|split; [|split]].
  - destruct (ShaderChunk !! "fading_pars_vertex") eqn:E; [rewrite E; reflexivity|].
    destruct ((fadingShaderChunk ∪ ShaderChunk) !! "fading_pars_vertex"); [reflexivity|].
    rewrite (assoc_L (∪)), (idemp_L (∪)). reflexivity.
  - intros name Hname. destruct (ShaderChunk !! "fading_pars_vertex"); [reflexivity|].
    apply lookup_union_r, Hname.
  - intros -> name text Hname. apply lookup_union_Some_l, Hname.
  - intros [text ->]. reflexivity.
Qed.

End InstanceFacts.

Lemma patchGlobalShaderChunks_effect_witness :
  patchGlobalShaderChunks Sample.fadingShaderChunk Sample.stockChunks !! "fog_vertex"
  = Some "fogDepth = -mvPosition.z;"
  /\ patchGlobalShaderChunks Sample.fadingShaderChunk Sample.stockChunks !! "fading_fragment"
     = Some "gl_FragColor.a *= vFade;"
  /\ patchGlobalShaderChunks Sample.fadingShaderChunk {["fading_pars_vertex" := "other"]}
     = {["fading_pars_vertex" := "other"]}.
Proof.
  destruct (patchGlobalShaderChunks_effect Sample.fadingShaderChunk Sample.stockChunks)
    as (_ & Hstock & Hnew & _).
  destruct (patchGlobalShaderChunks_effect Sample.fadingShaderChunk
              {["fading_pars_vertex" := "other"]}) as (_ & _ & _ & Hold).
  split; [|split].
  - rewrite (Hstock "fog_vertex") by reflexivity. reflexivity.
  - apply (Hnew eq_refl). reflexivity.
  - apply Hold. eexists. reflexivity.
Defined.

Lemma construct_applies_parameters_witness :
  let m := snd (construct Sample.superNew Sample.fadingShaderChunk MapMeshStandardMaterial
                  (Sample.params (Some 0.2%float) (Some 0.8%float)) Sample.stockChunks) in
  get_fadeNear m = Some 0.2%float
  /\ get_fadeFar m = Some 0.8%float
  /\ needsUpdate (base m) = Some true
  /\ lookupDefine FADING_MATERIAL m = Some "".
Proof.
  cbv zeta.
  destruct (construct_applies_parameters unit Sample.superNew Sample.fadingShaderChunk
              MapMeshStandardMaterial tt (Some 0.2%float) (Some 0.8%float) Sample.stockChunks)
    as (_ & _ & _ & _ & Hnear & Hfar).
  destruct (Hnear 0.2%float eq_refl) as [Hn _].
  destruct (Hfar 0.8%float eq_refl) as (Hf & Hflag & Hdef).
  split; [exact Hn|]. split; [exact Hf|]. split; [exact Hflag | exact (Hdef eq_refl)].
Defined.

(** ** Hooks installed one after the other, and a frame followed by a compile *)

(** X12.  [addRenderHelper] replaces the before-render hook on every call
    but assigns the after-render hook only when
    [forceMaterialToTransparent] is true.  So after any run of calls on
    one object, the before-render hook is the one of the last call, and
    the after-render hook is the transparency-resetting one as soon as any
    call of the run was forced, also when the last call was not;
    otherwise it is the hook the object had before. *)
Theorem addRenderHelper_repeated (calls : list RenderHelperCall) (object : Object3D) :
  onAfterRender (addRenderHelpers calls object)
  = (if existsb callForce calls then afterRenderHook else onAfterRender object)
  /\ (forall earlier last, calls = (earlier ++ [last])%list ->
        onBeforeRender (addRenderHelpers calls object)
        = beforeRenderHook (callFadeNear last) (callFadeFar last) (callForce last)
            (callUpdateUniforms last) (callCallback last))
  /\ (forall earlier last renderer camera material,
        calls = (earlier ++ [last])%list ->
        existsb callForce earlier = true ->
        callForce last = false ->
        transparent (base (materialOf (onAfterRender (addRenderHelpers calls object)
                                         renderer camera material))) = Some false).
Proof.
  assert (Hafter : forall cs o,
             onAfterRender (addRenderHelpers cs o)
             = if existsb callForce cs then afterRenderHook else onAfterRender o).
  { induction cs as [|c rest IH]; intros o; [reflexivity|].
    unfold addRenderHelpers in *. simpl. rewrite IH.
    destruct (existsb callForce rest); [rewrite orb_true_r; reflexivity|].
    rewrite orb_false_r. unfold addRenderHelperCall, addRenderHelper.
    destruct (callForce c); reflexivity. }
  split; [apply Hafter|]. split.
  - intros earlier last ->. unfold addRenderHelpers. rewrite fold_left_app. simpl.
    unfold addRenderHelperCall at 1. unfold addRenderHelper.
    destruct (callForce last); reflexivity.
  - intros earlier last renderer camera material -> Hforced Hlast.
    rewrite Hafter, existsb_app, Hforced. reflexivity.
Qed.

Lemma addRenderHelper_repeated_witness :
  let forced := mkRenderHelperCall (Some 0.1%float) (Some 0.5%float) true false None in
  let plain := mkRenderHelperCall None None false false None in
  transparent (base (materialOf (onAfterRender (addRenderHelpers [forced; plain] newObject3D)
                                   Sample.idleRenderer Sample.camera1000
                                   (setTransparent (Some true) (Sample.settled None None None)))))
  = Some false.
Proof.
  cbv zeta.
  destruct (addRenderHelper_repeated
              [mkRenderHelperCall (Some 0.1%float) (Some 0.5%float) true false None;
               mkRenderHelperCall None None false false None] newObject3D) as (_ & _ & Hstale).
  apply (Hstale [mkRenderHelperCall (Some 0.1%float) (Some 0.5%float) true false None]
           (mkRenderHelperCall None None false false None)); reflexivity.
Defined.

Lemma onBeforeCompile_ext (m1 m2 : Material) (s : Shader) :
  get_fadeNear m1 = get_fadeNear m2 -> get_fadeFar m1 = get_fadeFar m2 ->
  onBeforeCompile m1 s = onBeforeCompile m2 s.
Proof. intros Hn Hf. unfold onBeforeCompile. rewrite Hn, Hf. reflexivity. Qed.

Lemma gtZero_not_leZero_true (x : float) : gtZero x = true -> leZero x = false.
Proof.
  intros Hgt. destruct (leZero x) eqn:Hle; [|reflexivity].
  rewrite (NumberFacts.leZero_not_gtZero x Hle) in Hgt. discriminate Hgt.
Qed.

(** X13.  A frame followed by a shader build, on a material with
    registered accessors whose define follows its [fadeFar] and a helper
    without callback.  When the helper was configured without [fadeFar],
    the before-render hook stores the sentinel and the compile-time hook
    then leaves any shader untouched.  When it was configured with a
    [fadeFar] whose world-space distance is [> 0], the compile-time hook
    then registers both uniforms with the world-space distances, and the
    [FADING_MATERIAL] define is present. *)
Theorem beforeRender_then_compile (m : Material) (n f : option float)
    (force updateUniforms : bool) (renderer : WebGLRenderer) (camera : Camera) (s : Shader) :
  defineFollowsFadeFar m ->
  let m' := materialOf (beforeRenderHook n f force updateUniforms None renderer camera m) in
  (f = None -> onBeforeCompile m' s = s /\ callOnBeforeCompile m' s = s)
  /\ (forall d, f = Some d ->
        gtZero (PrimFloat.mul d (far camera)) = true ->
        uniforms (onBeforeCompile m' s) !! "fadeFar"
        = Some (mkUniform (Number (PrimFloat.mul d (far camera))))
        /\ uniforms (onBeforeCompile m' s) !! "fadeNear"
           = Some (mkUniform (Number (worldDistance n DEFAULT_FADE_NEAR camera)))
        /\ lookupDefine FADING_MATERIAL m' = Some "").
Proof.
  intros Hinv m'.
  assert (Hnone : forall X (P : Material -> X), callbackKeeps P None).
  { intros X P callback Hc. discriminate Hc. }
  set (m1 := if force then setTransparent (Some true) m else m).
  assert (H1 : defineFollowsFadeFar m1).
  { unfold m1. destruct force; [|exact Hinv].
    apply (follows_same_state m); [reflexivity..|exact Hinv]. }
  set (m3 := set_fadeFar (worldDistance f DEFAULT_FADE_FAR camera)
               (set_fadeNear (worldDistance n DEFAULT_FADE_NEAR camera) m1)).
  pose proof (follows_assignments (worldDistance n DEFAULT_FADE_NEAR camera)
                (worldDistance f DEFAULT_FADE_FAR camera) m1 H1) as H3.
  fold m3 in H3.
  destruct (set_fade_registered (worldDistance n DEFAULT_FADE_NEAR camera)
              (worldDistance f DEFAULT_FADE_FAR camera) m1 (proj1 H1)) as [Hn3 Hf3].
  fold m3 in Hn3, Hf3.
  assert (Hn' : get_fadeNear m' = get_fadeNear m3)
    by (apply (beforeRenderHook_material get_fadeNear); [reflexivity | apply Hnone]).
  assert (Hf' : get_fadeFar m' = get_fadeFar m3)
    by (apply (beforeRenderHook_material get_fadeFar); [reflexivity | apply Hnone]).
  assert (Hd' : lookupDefine FADING_MATERIAL m' = lookupDefine FADING_MATERIAL m3)
    by (apply (beforeRenderHook_material (lookupDefine FADING_MATERIAL));
        [reflexivity | apply Hnone]).
  rewrite (onBeforeCompile_ext m' m3 s Hn' Hf'). split.
  - intros ->. simpl in Hf3.
    assert (E : onBeforeCompile m3 s = s).
    { apply onBeforeCompile_off. right. exists DEFAULT_FADE_FAR. split; [exact Hf3 | reflexivity]. }
    split; [exact E|]. unfold callOnBeforeCompile.
    destruct (onBeforeCompile_hook (base m')); [reflexivity|].
    rewrite (onBeforeCompile_ext m' m3 s Hn' Hf'). exact E.
  - intros d -> Hgt. simpl in Hf3.
    rewrite (onBeforeCompile_uniforms m3 s _ Hf3 (gtZero_not_leZero_true _ Hgt)).
    split; [apply lookup_insert_eq|]. split.
    + rewrite lookup_insert_ne by discriminate. rewrite lookup_insert_eq, Hn3. reflexivity.
    + rewrite Hd'. apply (proj2 H3 (PrimFloat.mul d (far camera))); [|exact Hgt].
      unfold get_fadeFar, getFadeFar in Hf3. rewrite (proj1 H3) in Hf3. exact Hf3.
Qed.

Lemma beforeRender_then_compile_witness :
  let m := Sample.settled None (Some (-1)%float) None in
  let after n f := materialOf (beforeRenderHook n f true false None Sample.idleRenderer
                                 Sample.camera1000 m) in
  defineFollowsFadeFar m
  /\ onBeforeCompile (after (Some 0.1%float) None) Sample.sampleShader = Sample.sampleShader
  /\ uniforms (onBeforeCompile (after (Some 0.1%float) (Some 0.5%float)) Sample.sampleShader)
     !! "fadeFar" = Some (mkUniform (Number 500%float))
  /\ lookupDefine FADING_MATERIAL (after (Some 0.1%float) (Some 0.5%float)) = Some "".
Proof.
  cbv zeta.
  assert (Hinv : defineFollowsFadeFar (Sample.settled None (Some (-1)%float) None)).
  { split; [reflexivity|]. intros f Hf Hgt. injection Hf as <-. discriminate Hgt. }
  destruct (beforeRender_then_compile _ (Some 0.1%float) None true false Sample.idleRenderer
              Sample.camera1000 Sample.sampleShader Hinv) as [Hoff _].
  destruct (beforeRender_then_compile _ (Some 0.1%float) (Some 0.5%float) true false
              Sample.idleRenderer Sample.camera1000 Sample.sampleShader Hinv) as [_ Hon].
  destruct (Hon 0.5%float eq_refl eq_refl) as (Hfar & _ & Hdef).
  split; [exact Hinv|]. split; [exact (proj1 (Hoff eq_refl))|]. split; [exact Hfar | exact Hdef].
Defined.

(** ** When a setter runs the update procedure *)

Lemma nan_ne_all (v s : float) : PrimFloat.eqb v v = false -> PrimFloat.eqb v s = false.
Proof.
  rewrite !FloatAxioms.eqb_spec.
  destruct (Prim2SF v) as [[]|[]| |[] m e]; cbn; try discriminate; try reflexivity.
  - rewrite Z.compare_refl, Pos.compare_cont_refl. discriminate.
  - rewrite Z.compare_refl, Pos.compare_cont_refl. discriminate.
Qed.

(** X14.  Each setter leaves [needsUpdate] a boolean, never undefined,
    and never lowers it: a flag that was true stays true.  The flag ends
    true, and the update procedure has run (the defines map exists),
    whenever the stored distance was undefined and whenever the assigned
    number is NaN, NaN being unequal to every stored value, itself
    included. *)
Theorem setter_raises_flag (m : Material) (v : float) :
  (is_Some (needsUpdate (base (setFadeNear v m)))
   /\ is_Some (needsUpdate (base (setFadeFar v m))))
  /\ (needsUpdate (base m) = Some true ->
      needsUpdate (base (setFadeNear v m)) = Some true
      /\ needsUpdate (base (setFadeFar v m)) = Some true)
  /\ (m_fadeNear m = None \/ PrimFloat.eqb v v = false ->
      needsUpdate (base (setFadeNear v m)) = Some true
      /\ is_Some (defines (base (setFadeNear v m))))
  /\ (m_fadeFar m = None \/ PrimFloat.eqb v v = false ->
      needsUpdate (base (setFadeFar v m)) = Some true
      /\ is_Some (defines (base (setFadeFar v m)))).
Proof.
  assert (Hmap : forall x, is_Some (defines (base (updateDistanceFadeFeature x)))).
  { intros x. rewrite updateDistanceFadeFeature_unfold. eexists. reflexivity. }
  assert (Hne : forall stored, stored = None \/ PrimFloat.eqb v v = false ->
                               strictNe v stored = true).
  { intros stored [->|Hnan]; [reflexivity|]. destruct stored as [s|]; [|reflexivity].
    simpl. rewrite (nan_ne_all v s Hnan). reflexivity. }
  pose proof (setFadeNear_unfold m v) as Hn. pose proof (setFadeFar_unfold m v) as Hf.
  cbv zeta in Hn, Hf. rewrite Hn, Hf. clear Hn Hf.
  split; [|split; [|split]].
  - split.
    + destruct (truthy _ || strictNe v (m_fadeNear m));
        [rewrite (proj2 (proj2 (proj2 (proj2 (proj2 (updateDistanceFadeFeature_frame _)))))) |];
        eexists; reflexivity.
    + destruct (truthy _ || strictNe v (m_fadeFar m));
        [rewrite (proj2 (proj2 (proj2 (proj2 (proj2 (updateDistanceFadeFeature_frame _)))))) |];
        eexists; reflexivity.
  - intros ->. simpl. split; apply updateDistanceFadeFeature_frame.
  - intros H. rewrite (Hne _ H), orb_true_r.
    split; [apply updateDistanceFadeFeature_frame | apply Hmap].
  - intros H. rewrite (Hne _ H), orb_true_r.
    split; [apply updateDistanceFadeFeature_frame | apply Hmap].
Qed.

Lemma setter_raises_flag_witness :
  let built := Sample.settled (Some nan) (Some 0.8%float) None in
  needsUpdate (base built) = Some false
  /\ needsUpdate (base (setFadeNear nan built)) = Some true
  /\ needsUpdate (base (setFadeFar 0.8%float (Sample.settled None None None))) = Some true
  /\ needsUpdate (base (setFadeFar 0.8%float (setNeedsUpdate (Some true) built))) = Some true.
Proof.
  cbv zeta.
  destruct (setter_raises_flag (Sample.settled (Some nan) (Some 0.8%float) None) nan)
    as (_ & _ & Hnan & _).
  destruct (setter_raises_flag (Sample.settled None None None) 0.8%float)
    as (_ & _ & _ & Hundef).
  destruct (setter_raises_flag
              (setNeedsUpdate (Some true) (Sample.settled (Some nan) (Some 0.8%float) None))
              0.8%float) as (_ & Hsticky & _).
  split; [reflexivity|].
  split; [exact (proj1 (Hnan (or_intror eq_refl)))|].
  split; [exact (proj1 (Hundef (or_introl eq_refl))) | exact (proj2 (Hsticky eq_refl))].
Defined.

(** X15.  The two uniform assignments of the before-render hook are not
    atomic.  When the renderer's shader has a [fadeNear] uniform but no
    [fadeFar] uniform, the hook has already overwritten [fadeNear] with the
    new world-space distance when it throws; when [fadeNear] is the one
    missing, it throws before writing anything and the renderer is as it
    was. *)
Theorem beforeRender_partial_push (n f : option float) (force : bool) (cb : option Callback)
    (renderer : WebGLRenderer) (camera : Camera) (material : Material) (s : Shader) :
  accessors material = Registered ->
  shader (properties renderer) = Some s ->
  let result := beforeRenderHook n f force true cb renderer camera material in
  (uniforms s !! "fadeNear" = None ->
   completionOf result = typeError /\ rendererOf result = renderer)
  /\ (is_Some (uniforms s !! "fadeNear") -> uniforms s !! "fadeFar" = None ->
      completionOf result = typeError
      /\ exists s', shader (properties (rendererOf result)) = Some s'
                    /\ uniforms s' !! "fadeNear"
                       = Some (mkUniform (Number (worldDistance n DEFAULT_FADE_NEAR camera)))
                    /\ uniforms s' !! "fadeFar" = None).
Proof.
  intros Hacc Hs. cbv zeta. unfold beforeRenderHook.
  fold (worldDistance n DEFAULT_FADE_NEAR camera). fold (worldDistance f DEFAULT_FADE_FAR camera).
  set (m1 := if force then setTransparent (Some true) material else material).
  assert (Hacc1 : accessors m1 = Registered) by (unfold m1; destruct force; exact Hacc).
  set (m3 := set_fadeFar _ (set_fadeNear _ m1)).
  assert (Hn3 : get_fadeNear m3 = Some (worldDistance n DEFAULT_FADE_NEAR camera))
    by apply (set_fade_registered _ _ m1 Hacc1).
  unfold pushUniforms, assignUniformValue. rewrite Hs. split.
  - intros ->. simpl. split; reflexivity.
  - intros [u ->] Hfar. simpl. rewrite lookup_insert_ne by discriminate. rewrite Hfar. simpl.
    split; [reflexivity|]. eexists. split; [reflexivity|]. simpl.
    rewrite lookup_insert_eq, Hn3, lookup_insert_ne by discriminate. split; [reflexivity | exact Hfar].
Qed.

Lemma beforeRender_partial_push_witness :
  let s := mkShader {["fadeNear" := mkUniform Undefined]} Sample.vertexSource Sample.fragmentSource in
  let result := beforeRenderHook (Some 0.1%float) (Some 0.5%float) false true None
                  (mkRenderer (mkMaterialProperties (Some s))) Sample.camera1000
                  (Sample.settled None None None) in
  completionOf result = typeError
  /\ exists s', shader (properties (rendererOf result)) = Some s'
                /\ uniforms s' !! "fadeNear" = Some (mkUniform (Number 100%float)).
Proof.
  cbv zeta.
  destruct (beforeRender_partial_push (Some 0.1%float) (Some 0.5%float) false None
              (mkRenderer (mkMaterialProperties
                 (Some (mkShader {["fadeNear" := mkUniform Undefined]}
                          Sample.vertexSource Sample.fragmentSource))))
              Sample.camera1000 (Sample.settled None None None) _ eq_refl eq_refl) as [_ Hpartial].
  destruct (Hpartial ltac:(eexists; reflexivity) eq_refl) as (Hc & s' & Hs' & Hn & _).
  split; [exact Hc|]. exists s'. split; [exact Hs' | exact Hn].
Defined.
